(** * subscrape: the operation dispatcher and the cache store

    A shallow embedding of [subscrape/scrapers/parachain_scraper.py]
    (class [ParachainScraper]) and [subscrape/db/subscrape_db.py]
    (class [SubscrapeDB]), with the properties of the specification
    stated and settled over it.

    Python values of the configuration tree are a small inductive type,
    exceptions are an explicit result, and the effects of the dispatcher
    (the calls made on the API object, the scopes derived, the lines
    logged) are recorded in a trace threaded through a state-and-error
    monad. *)

From Stdlib Require Import List String Ascii ZArith Bool Lia.
Import ListNotations.

Local Open Scope string_scope.
Local Open Scope Z_scope.
Set Warnings "-register-all".

(** ** Python values and exceptions *)

(** The configuration is what [json.load] or a dict literal of the tests
    produces: [None], booleans, integers, strings, lists, and dicts keyed
    by strings. A dict keeps its insertion order, which is the order
    [for k in d] visits the keys in. Strings are sequences of one-byte
    characters, enough for the names of operations, modules, calls and
    accounts. *)
Inductive pyval : Type :=
| PNone
| PBool (b : bool)
| PInt (z : Z)
| PStr (s : string)
| PList (items : list pyval)
| PDict (entries : list (string * pyval)).

Inductive exn : Type :=
| TypeError
| AttributeError
| KeyError
| IndexError
| IntegrityError
| ExternalError (detail : string).

Inductive result (A : Type) : Type :=
| Ok (a : A)
| Raise (e : exn).
Arguments Ok {A} a.
Arguments Raise {A} e.

Module Py.

(** [d.get(k)] on the entries of a dict. *)
Fixpoint lookup (k : string) (d : list (string * pyval)) : option pyval :=
  match d with
  | [] => None
  | (k', v) :: rest => if String.eqb k k' then Some v else lookup k rest
  end.

Definition keys (d : list (string * pyval)) : list string := map fst d.

(** The characters of a string, each as a string of length one. *)
Fixpoint chars (s : string) : list pyval :=
  match s with
  | EmptyString => []
  | String c rest => PStr (String c EmptyString) :: chars rest
  end.

(** [iter(v)]: what a [for x in v] loop visits. [None], booleans and
    integers are not iterable. *)
Definition iter (v : pyval) : result (list pyval) :=
  match v with
  | PDict d => Ok (map PStr (keys d))
  | PList l => Ok l
  | PStr s => Ok (chars s)
  | PNone | PBool _ | PInt _ => Raise TypeError
  end.

(** [v.startswith("_")]: only strings have the method. *)
Definition startswith_underscore (v : pyval) : result bool :=
  match v with
  | PStr s => Ok (String.prefix "_" s)
  | _ => Raise AttributeError
  end.

(** [v == s] for a string literal [s]. *)
Definition eq_str (v : pyval) (s : string) : bool :=
  match v with
  | PStr s' => String.eqb s' s
  | _ => false
  end.

(** [type(v) is dict]. *)
Definition is_dict (v : pyval) : bool :=
  match v with
  | PDict _ => true
  | _ => false
  end.

(** Sequence indexing with Python's negative indices. *)
Definition seq_index {A : Type} (l : list A) (i : Z) : option A :=
  let n := Z.of_nat (List.length l) in
  if (0 <=? i) && (i <? n) then nth_error l (Z.to_nat i)
  else if (- n <=? i) && (i <? 0) then nth_error l (Z.to_nat (n + i))
  else None.

Definition int_of_index (k : pyval) : option Z :=
  match k with
  | PInt i => Some i
  | PBool b => Some (if b then 1 else 0)
  | _ => None
  end.

(** [c[k]]. *)
Definition getitem (c k : pyval) : result pyval :=
  match c with
  | PDict d =>
      match k with
      | PStr s => match lookup s d with
                  | Some v => Ok v
                  | None => Raise KeyError
                  end
      | PList _ | PDict _ => Raise TypeError
      | PNone | PBool _ | PInt _ => Raise KeyError
      end
  | PList l =>
      match int_of_index k with
      | Some i => match seq_index l i with
                  | Some v => Ok v
                  | None => Raise IndexError
                  end
      | None => Raise TypeError
      end
  | PStr s =>
      match int_of_index k with
      | Some i => match seq_index (chars s) i with
                  | Some v => Ok v
                  | None => Raise IndexError
                  end
      | None => Raise TypeError
      end
  | PNone | PBool _ | PInt _ => Raise TypeError
  end.

(** [str(v)] inside an f-string, for the values that reach a log line
    (names that passed [startswith]); other values print as a
    placeholder, their text is never inspected. *)
Definition format (v : pyval) : string :=
  match v with
  | PStr s => s
  | _ => "<object>"
  end.

End Py.

(** ** State and exceptions *)

(** A computation over a state [S] that returns a value or raises. The
    state reached when an exception is raised is kept: it shows what had
    been done before the failure. *)
Definition M (S A : Type) : Type := S -> result A * S.

Definition ret {S A : Type} (a : A) : M S A := fun st => (Ok a, st).

Definition raise {S A : Type} (e : exn) : M S A := fun st => (Raise e, st).

Definition bind {S A B : Type} (c : M S A) (k : A -> M S B) : M S B :=
  fun st =>
    match c st with
    | (Ok a, st') => k a st'
    | (Raise e, st') => (Raise e, st')
    end.

Definition lift {S A : Type} (r : result A) : M S A := fun st => (r, st).

Declare Scope py_scope.
Delimit Scope py_scope with py.
Notation "x <- c ;; k" := (bind c (fun x => k))
  (at level 61, c at next level, right associativity) : py_scope.
Notation "c ;;; k" := (bind c (fun _ => k))
  (at level 61, right associativity) : py_scope.

(** A [for x in xs] loop whose body updates one accumulator;
    [continue] is the body returning the accumulator as it is. *)
Fixpoint for_each {S A : Type} (body : pyval -> A -> M S A)
                  (xs : list pyval) (acc : A) : M S A :=
  match xs with
  | [] => ret acc
  | x :: rest => bind (body x acc) (fun acc' => for_each body rest acc')
  end.

(** ** The collaborators of the dispatcher *)

(** [ScrapeConfig] ([subscrape/scrape_config.py], not among the sources)
    is used by the dispatcher through two members only:
    [create_inner_config] and the [skip] attribute. The dispatcher is
    embedded over any type that offers them, with the signatures of
    section 4.1 of the specification: [create_inner_config] returns a new
    scope, [skip] is a boolean. *)
Class ScrapeConfigOps (Scope : Type) : Type := {
  create_inner_config : Scope -> pyval -> Scope;
  skip : Scope -> bool
}.

(** The API object ([SubscanBase], [subscrape/apis/subscan_base.py], not
    among the sources) with the five entry points the dispatcher calls,
    as section 6 of the specification lists them. Each one acts on the
    outside world [W] (the remote service and the cache), reports a
    count of scraped items or raises. *)
Record SubscanBase (Scope W : Type) : Type := {
  fetch_extrinsics_index : pyval -> pyval -> Scope -> W -> result Z * W;
  fetch_extrinsics : pyval -> W -> result Z * W;
  fetch_events_index : pyval -> pyval -> Scope -> W -> result Z * W;
  fetch_events : pyval -> W -> result Z * W;
  fetch_transfers : pyval -> Scope -> W -> result Z * W
}.
Arguments fetch_extrinsics_index {Scope W}.
Arguments fetch_extrinsics {Scope W}.
Arguments fetch_events_index {Scope W}.
Arguments fetch_events {Scope W}.
Arguments fetch_transfers {Scope W}.

(** What a run of the dispatcher does, in order. *)
Inductive event (Scope : Type) : Type :=
| CreateInner (parent : Scope) (subtree : pyval)
| FetchExtrinsicsIndex (module call : pyval) (config : Scope)
| FetchExtrinsics (ids : pyval)
| FetchEventsIndex (module call : pyval) (config : Scope)
| FetchEvents (ids : pyval)
| FetchTransfers (account : pyval) (config : Scope)
| LogError (msg : string)
| LogInfo (msg : string).
Arguments CreateInner {Scope}.
Arguments FetchExtrinsicsIndex {Scope}.
Arguments FetchExtrinsics {Scope}.
Arguments FetchEventsIndex {Scope}.
Arguments FetchEvents {Scope}.
Arguments FetchTransfers {Scope}.
Arguments LogError {Scope}.
Arguments LogInfo {Scope}.

Record RunState (Scope W : Type) : Type := {
  world : W;
  trace : list (event Scope)
}.
Arguments world {Scope W}.
Arguments trace {Scope W}.
Arguments Build_RunState {Scope W}.

(** ** ParachainScraper *)

Module ParachainScraper.
Section Dispatcher.

Context {Scope : Type} `{ScrapeConfigOps Scope} {W : Type}.
Variable api : SubscanBase Scope W.

Local Open Scope py_scope.

Local Abbreviation State := (RunState Scope W).
Local Abbreviation Run := (M (RunState Scope W)).

Definition emit (ev : event Scope) (st : State) : State :=
  Build_RunState (world st) (trace st ++ [ev]).

Definition log_error (msg : string) : Run unit :=
  fun st => (Ok tt, emit (LogError msg) st).

Definition log_info (msg : string) : Run unit :=
  fun st => (Ok tt, emit (LogInfo msg) st).

(** [parent.create_inner_config(subtree)], noted in the trace. *)
Definition derive (parent : Scope) (subtree : pyval) : Run Scope :=
  fun st => (Ok (create_inner_config parent subtree),
             emit (CreateInner parent subtree) st).

(** A call of an entry point of the API: noted in the trace, then run
    on the world. *)
Definition call_api (ev : event Scope) (f : W -> result Z * W) : Run Z :=
  fun st =>
    let (r, w') := f (world st) in
    (r, Build_RunState w' (trace st ++ [ev])).

Definition api_fetch_extrinsics_index (module call : pyval) (config : Scope)
  : Run Z :=
  call_api (FetchExtrinsicsIndex module call config)
           (fetch_extrinsics_index api module call config).

Definition api_fetch_extrinsics (ids : pyval) : Run Z :=
  call_api (FetchExtrinsics ids) (fetch_extrinsics api ids).

Definition api_fetch_events_index (module call : pyval) (config : Scope)
  : Run Z :=
  call_api (FetchEventsIndex module call config)
           (fetch_events_index api module call config).

Definition api_fetch_events (ids : pyval) : Run Z :=
  call_api (FetchEvents ids) (fetch_events api ids).

Definition api_fetch_transfers (account : pyval) (config : Scope) : Run Z :=
  call_api (FetchTransfers account config)
           (fetch_transfers api account config).

(** *** scrape_module_calls *)

(** Lines 79-83, "deduce config". *)
Definition deduce_call_config (module_config : Scope) (calls call : pyval)
  : Run Scope :=
  if Py.is_dict calls then
    sub <- lift (Py.getitem calls call) ;;
    derive module_config sub
  else
    ret module_config.

(** The body of [for call in calls] (lines 75-91). *)
Definition scrape_call (fetch_function : pyval -> pyval -> Scope -> Run Z)
           (module calls : pyval) (module_config : Scope)
           (call : pyval) (items_scraped : Z) : Run Z :=
  meta <- lift (Py.startswith_underscore call) ;;
  if meta then ret items_scraped
  else
    call_config <- deduce_call_config module_config calls call ;;
    if skip call_config then
      log_info ("Config asks to skip " ++ Py.format module ++ " "
                  ++ Py.format call) ;;;
      ret items_scraped
    else
      n <- fetch_function module call call_config ;;
      ret (items_scraped + n).

(** The body of [for module in modules] (lines 67-91). *)
Definition scrape_module (fetch_function : pyval -> pyval -> Scope -> Run Z)
           (modules : pyval) (extrinsic_config : Scope)
           (module : pyval) (items_scraped : Z) : Run Z :=
  meta <- lift (Py.startswith_underscore module) ;;
  if meta then ret items_scraped
  else
    calls <- lift (Py.getitem modules module) ;;
    module_config <- derive extrinsic_config calls ;;
    call_list <- lift (Py.iter calls) ;;
    for_each (scrape_call fetch_function module calls module_config)
             call_list items_scraped.

Definition scrape_module_calls (modules : pyval) (chain_config : Scope)
           (fetch_function : pyval -> pyval -> Scope -> Run Z) : Run Z :=
  extrinsic_config <- derive chain_config modules ;;
  module_list <- lift (Py.iter modules) ;;
  for_each (scrape_module fetch_function modules extrinsic_config)
           module_list 0.

(** *** scrape_transfers *)

(** The body of [for account in accounts] (lines 108-123). The test
    [type(account) is dict] is made on the key, as in the source. *)
Definition scrape_account (accounts : pyval) (accounts_config : Scope)
           (account : pyval) (items_scraped : Z) : Run Z :=
  meta <- lift (Py.startswith_underscore account) ;;
  if meta then ret items_scraped
  else
    account_config <-
      (if Py.is_dict account then
         sub <- lift (Py.getitem accounts account) ;;
         derive accounts_config sub
       else ret accounts_config) ;;
    if skip account_config then
      log_info ("Config asks to skip account " ++ Py.format account) ;;;
      ret items_scraped
    else
      n <- api_fetch_transfers account account_config ;;
      ret (items_scraped + n).

(** [scrape_transfers] is a plain [def] whose body ends after the loop:
    the count it accumulated is dropped and the call evaluates to
    [None]. *)
Definition scrape_transfers (accounts : pyval) (chain_config : Scope)
  : Run pyval :=
  accounts_config <- derive chain_config accounts ;;
  account_list <- lift (Py.iter accounts) ;;
  for_each (scrape_account accounts accounts_config) account_list 0 ;;;
  ret PNone.

(** *** scrape *)

(** [await v] on a value that is not a coroutine: none of the values of
    [pyval] is awaitable. *)
Definition await_value (v : pyval) : Run Z := raise TypeError.

(** The body of [for operation in operations] (lines 27-47). The
    statement [exit] of line 47 names the builtin without calling it
    and does nothing. *)
Definition scrape_operation (operations : pyval) (chain_config : Scope)
           (operation : pyval) (items_scraped : Z) : Run Z :=
  meta <- lift (Py.startswith_underscore operation) ;;
  if meta then ret items_scraped
  else if Py.eq_str operation "extrinsics" then
    modules <- lift (Py.getitem operations operation) ;;
    n <- scrape_module_calls modules chain_config
           api_fetch_extrinsics_index ;;
    ret (items_scraped + n)
  else if Py.eq_str operation "extrinsics-list" then
    extrinsics_list <- lift (Py.getitem operations operation) ;;
    n <- api_fetch_extrinsics extrinsics_list ;;
    ret (items_scraped + n)
  else if Py.eq_str operation "events" then
    modules <- lift (Py.getitem operations operation) ;;
    n <- scrape_module_calls modules chain_config api_fetch_events_index ;;
    ret (items_scraped + n)
  else if Py.eq_str operation "events-list" then
    events_list <- lift (Py.getitem operations operation) ;;
    n <- api_fetch_events events_list ;;
    ret (items_scraped + n)
  else if Py.eq_str operation "transfers" then
    accounts <- lift (Py.getitem operations operation) ;;
    r <- scrape_transfers accounts chain_config ;;
    n <- await_value r ;;
    ret (items_scraped + n)
  else
    log_error ("config contained an operation that does not exist: "
                 ++ Py.format operation) ;;;
    ret items_scraped.

Definition scrape (operations : pyval) (chain_config : Scope) : Run Z :=
  operation_list <- lift (Py.iter operations) ;;
  for_each (scrape_operation operations chain_config) operation_list 0.

End Dispatcher.
End ParachainScraper.

(** ** ScrapeConfig *)

Module ScrapeConfig.

(** Modelled from the spec: the class [ScrapeConfig]
    ([subscrape/scrape_config.py]) is not among the sources. Section
    4.1 of the specification: a scope holds an inherited [skip] flag
    and an inherited parameter bag ([_params], [_auto_hydrate]);
    [create_inner_config(subtree)] inherits the parent's skip flag,
    or-ed with a skip marker found on the subtree itself, and lets the
    keys of the subtree override the inherited parameters. *)
Record t : Type := {
  skip : bool;
  auto_hydrate : bool;
  params : list (string * pyval)
}.

(** [bool(v)]. *)
Definition truthy (v : pyval) : bool :=
  match v with
  | PNone => false
  | PBool b => b
  | PInt z => negb (z =? 0)
  | PStr s => negb (String.eqb s "")
  | PList l => match l with [] => false | _ => true end
  | PDict d => match d with [] => false | _ => true end
  end.

Definition has_key (k : string) (d : list (string * pyval)) : bool :=
  existsb (String.eqb k) (Py.keys d).

(** The keys of [local] first, then the inherited ones they do not
    override. *)
Definition override (local inherited : list (string * pyval))
  : list (string * pyval) :=
  local ++ filter (fun kv => negb (has_key (fst kv) local)) inherited.

Definition create_inner_config (parent : t) (subtree : pyval) : t :=
  match subtree with
  | PDict d =>
      {| skip := skip parent
                 || match Py.lookup "_skip" d with
                    | Some v => truthy v
                    | None => false
                    end;
         auto_hydrate := match Py.lookup "_auto_hydrate" d with
                         | Some v => truthy v
                         | None => auto_hydrate parent
                         end;
         params := match Py.lookup "_params" d with
                   | Some (PDict p) => override p (params parent)
                   | _ => params parent
                   end |}
  | _ => parent
  end.

(** The scope a scrape starts from. *)
Definition root : t :=
  {| skip := false; auto_hydrate := false; params := [] |}.

End ScrapeConfig.

#[export] Instance ScrapeConfig_ops : ScrapeConfigOps ScrapeConfig.t := {
  create_inner_config := ScrapeConfig.create_inner_config;
  skip := ScrapeConfig.skip
}.

(** ** SubscrapeDB *)

(** The three mapped classes. Every column but the primary key is
    nullable. *)
Module Block.
Record t : Type := { block_number : Z }.
End Block.

Module Extrinsic.
Record t : Type := {
  id : string;
  block_number : option Z;
  module : option string;
  call : option string;
  address : option string;
  nonce : option Z;
  extrinsic_hash : option string;
  success : option bool;
  params : option pyval;
  fee : option Z;
  fee_used : option Z;
  error : option pyval;
  finalized : option bool;
  tip : option Z
}.
End Extrinsic.

Module Event.
Record t : Type := {
  id : string;
  block_number : option Z;
  extrinsic_id : option Z;
  module : option string;
  event : option string;
  params : option pyval;
  finalized : option bool
}.
End Event.

(** An instance of one of the mapped classes ([Base]). *)
Inductive item : Type :=
| BlockItem (b : Block.t)
| ExtrinsicItem (e : Extrinsic.t)
| EventItem (e : Event.t).

Module Session.

(** Modelled from the spec: the session of the object-relational
    mapper ([sqlalchemy.orm.Session]) and the storage engine under it
    are a library, not among the sources. Sections 4.3 and 5 of the
    specification: a write is staged and not committed; the commit
    persists all staged writes in one transaction, all or nothing; a
    primary key that already exists is a unique-constraint violation at
    that moment, never an update; mutation is insert only. A query made
    through the session sees the staged rows too (the session sends
    them to the engine, inside its open transaction, before it reads).
    Foreign keys are declared but not enforced by the engine, and each
    [add] is given an object of its own. *)
Record tables : Type := {
  blocks : list Block.t;
  extrinsics : list Extrinsic.t;
  events : list Event.t
}.

Record t : Type := {
  database : tables;      (* the committed rows *)
  pending : list item     (* staged by [add], in order *)
}.

Definition has_block (n : Z) (tb : tables) : bool :=
  existsb (fun b => Block.block_number b =? n) (blocks tb).

Definition has_extrinsic (i : string) (tb : tables) : bool :=
  existsb (fun e => String.eqb (Extrinsic.id e) i) (extrinsics tb).

Definition has_event (i : string) (tb : tables) : bool :=
  existsb (fun e => String.eqb (Event.id e) i) (events tb).

(** One INSERT. *)
Definition insert (it : item) (tb : tables) : result tables :=
  match it with
  | BlockItem b =>
      if has_block (Block.block_number b) tb then Raise IntegrityError
      else Ok {| blocks := blocks tb ++ [b];
                 extrinsics := extrinsics tb;
                 events := events tb |}
  | ExtrinsicItem e =>
      if has_extrinsic (Extrinsic.id e) tb then Raise IntegrityError
      else Ok {| blocks := blocks tb;
                 extrinsics := extrinsics tb ++ [e];
                 events := events tb |}
  | EventItem e =>
      if has_event (Event.id e) tb then Raise IntegrityError
      else Ok {| blocks := blocks tb;
                 extrinsics := extrinsics tb;
                 events := events tb ++ [e] |}
  end.

Fixpoint insert_all (its : list item) (tb : tables) : result tables :=
  match its with
  | [] => Ok tb
  | it :: rest =>
      match insert it tb with
      | Ok tb' => insert_all rest tb'
      | Raise e => Raise e
      end
  end.

(** The rows the session sees: the committed ones and the staged ones. *)
Definition visible (s : t) : result tables :=
  insert_all (pending s) (database s).

(** The transaction is abandoned: the staged rows are dropped. *)
Definition rollback (s : t) : t :=
  {| database := database s; pending := [] |}.

(** [session.add(item)]. *)
Definition add (it : item) : M t unit :=
  fun s => (Ok tt, {| database := database s; pending := pending s ++ [it] |}).

(** [session.commit()]. *)
Definition commit : M t unit :=
  fun s =>
    match visible s with
    | Ok tb => (Ok tt, {| database := tb; pending := [] |})
    | Raise e => (Raise e, rollback s)
    end.

(** The rows of a table as a query reads them. *)
Definition select {A : Type} (table : tables -> list A) : M t (list A) :=
  fun s =>
    match visible s with
    | Ok tb => (Ok (table tb), s)
    | Raise e => (Raise e, rollback s)
    end.

(** [session.query(Event).filter(Event.id.in_(ids)).all()]. *)
Definition query_events_id_in (ids : list string) : M t (list Event.t) :=
  bind (select events)
       (fun rows =>
          ret (filter (fun e => existsb (String.eqb (Event.id e)) ids) rows)).

(** [session.query(Event).get(event_id)]. *)
Definition get_event (event_id : string) : M t (option Event.t) :=
  bind (select events)
       (fun rows =>
          ret (find (fun e => String.eqb (Event.id e) event_id) rows)).

End Session.

Module SubscrapeDB.

Local Open Scope py_scope.

(** [self._session] is the whole state of a [SubscrapeDB]. *)
Definition flush : M Session.t unit := Session.commit.

Definition write_item (item_ : item) : M Session.t unit :=
  Session.add item_.

(** [index not in [match.id for match in matches]]. *)
Definition not_in_ids (index : string) (matches : list Event.t) : bool :=
  negb (existsb (String.eqb index) (map Event.id matches)).

Definition missing_events_from_index_list (index_list : list string)
  : M Session.t (list string) :=
  matches <- Session.query_events_id_in index_list ;;
  ret (filter (fun index => not_in_ids index matches) index_list).

Definition read_event_metadata (event_id : string)
  : M Session.t (option Event.t) :=
  result_ <- Session.get_event event_id ;;
  ret result_.

Definition read_event (event_id : string) : M Session.t (option Event.t) :=
  result_ <- Session.get_event event_id ;;
  ret result_.

(** The specification's [missing_ids], in its words: the subset of
    the candidate ids, in original order, that do not exist in the
    Event table. *)
Definition missing_ids_spec (rows : list Event.t)
           (candidate_ids : list string) : list string :=
  filter (fun i => negb (existsb (fun e => String.eqb (Event.id e) i) rows))
         candidate_ids.

(** Two items of the same class with the same primary key. *)
Definition same_primary_key (a b : item) : bool :=
  match a, b with
  | BlockItem x, BlockItem y =>
      Block.block_number x =? Block.block_number y
  | ExtrinsicItem x, ExtrinsicItem y =>
      String.eqb (Extrinsic.id x) (Extrinsic.id y)
  | EventItem x, EventItem y => String.eqb (Event.id x) (Event.id y)
  | _, _ => false
  end.

End SubscrapeDB.

(** ** Concrete collaborators, for worked examples *)

Module Demo.

(** An API whose world counts the calls made on it and whose entry
    points report fixed counts. *)
Definition api : SubscanBase ScrapeConfig.t nat := {|
  fetch_extrinsics_index := fun _ _ _ w => (Ok 5, S w);
  fetch_extrinsics := fun _ w => (Ok 1, S w);
  fetch_events_index := fun _ _ _ w => (Ok 7, S w);
  fetch_events := fun _ w => (Ok 2, S w);
  fetch_transfers := fun _ _ w => (Ok 3, S w)
|}.

Definition start : RunState ScrapeConfig.t nat :=
  {| world := O; trace := [] |}.

Definition empty_tables : Session.tables :=
  {| Session.blocks := []; Session.extrinsics := []; Session.events := [] |}.

Definition event_row (i : string) : Event.t :=
  {| Event.id := i; Event.block_number := None; Event.extrinsic_id := None;
     Event.module := None; Event.event := None; Event.params := None;
     Event.finalized := None |}.

Definition fresh : Session.t :=
  {| Session.database := empty_tables; Session.pending := [] |}.

(** Two committed events and a staged one. *)
Definition cached : Session.t :=
  {| Session.database :=
       {| Session.blocks := []; Session.extrinsics := [];
          Session.events := [event_row "100-1"; event_row "100-3"] |};
     Session.pending := [EventItem (event_row "100-2")] |}.

Definition cached_rows : Session.tables :=
  {| Session.blocks := []; Session.extrinsics := [];
     Session.events := [event_row "100-1"; event_row "100-3";
                        event_row "100-2"] |}.

(** A second record for the id of [event_row "100-1"], with another
    event name. *)
Definition renamed_row : Event.t :=
  {| Event.id := "100-1"; Event.block_number := Some 100;
     Event.extrinsic_id := None; Event.module := Some "balances";
     Event.event := Some "Transfer"; Event.params := None;
     Event.finalized := Some true |}.

End Demo.

(** The operation names [scrape] dispatches on. *)
Definition recognized_operation (k : string) : bool :=
  existsb (String.eqb k)
          ["extrinsics"; "extrinsics-list"; "events"; "events-list";
           "transfers"].

(** The line [scrape] logs for a key it does not know. *)
Definition unrecognized_msg (k : string) : string :=
  "config contained an operation that does not exist: " ++ k.

(** The line [scrape_module_calls] logs for a skipped call. *)
Definition skip_msg (module call : pyval) : string :=
  "Config asks to skip " ++ Py.format module ++ " " ++ Py.format call.

Section ModuleScope.

Context {Scope : Type} `{ScrapeConfigOps Scope} {W : Type}.

Local Open Scope py_scope.

(** The step of the call loop when the scope of the call is the scope
    of the module. *)
Definition scrape_call_at_module_scope
           (fetch_function : pyval -> pyval -> Scope -> M (RunState Scope W) Z)
           (module : pyval) (module_config : Scope)
           (call : pyval) (items_scraped : Z) : M (RunState Scope W) Z :=
  meta <- lift (Py.startswith_underscore call) ;;
  if meta then ret items_scraped
  else if skip module_config then
    ParachainScraper.log_info (skip_msg module call) ;;; ret items_scraped
  else
    n <- fetch_function module call module_config ;;
    ret (items_scraped + n).

End ModuleScope.

(** [v.startswith("_")] is true. *)
Definition is_metadata (v : pyval) : bool :=
  match Py.startswith_underscore v with
  | Ok true => true
  | _ => false
  end.

Definition data_keys (xs : list pyval) : list pyval :=
  filter (fun v => negb (is_metadata v)) xs.

(** A value that passed the metadata test of the walk: a string that
    does not begin with an underscore. *)
Definition is_data_key (v : pyval) : Prop :=
  Py.startswith_underscore v = Ok false.

(** The names an event hands to the API are data keys. *)
Definition names_data_keys {Scope : Type} (ev : event Scope) : Prop :=
  match ev with
  | FetchExtrinsicsIndex module call _ | FetchEventsIndex module call _ =>
      is_data_key module /\ is_data_key call
  | FetchTransfers account _ => is_data_key account
  | _ => True
  end.

(** [c] only adds events that satisfy [P] to the trace. *)
Definition appends {Scope W A : Type} (P : event Scope -> Prop)
           (c : M (RunState Scope W) A) : Prop :=
  forall st, exists evs,
    trace (snd (c st)) = (trace st ++ evs)%list /\ Forall P evs.

(** ** The queries of SubscrapeDB *)

Module Query.

(** Modelled from the spec: the query object of the object-relational
    mapper ([sqlalchemy.orm.Query]) is a library, not among the sources.
    Section 4.3 of the specification: a query is a lazy sequence over
    one table; every supplied filter must hold for a row to be returned;
    an omitted filter does not constrain. Nothing is read before [all]
    runs the query. *)
Record t (A : Type) : Type := {
  table : Session.tables -> list A;
  criteria : list (A -> bool)
}.
Arguments table {A}.
Arguments criteria {A}.

(** [session.query(Class)]. *)
Definition from {A : Type} (tbl : Session.tables -> list A) : t A :=
  {| table := tbl; criteria := [] |}.

(** [query.filter(criterion)]. *)
Definition filter_ {A : Type} (q : t A) (criterion : A -> bool) : t A :=
  {| table := table q; criteria := criteria q ++ [criterion] |}.

Definition accepts {A : Type} (q : t A) (row : A) : bool :=
  forallb (fun criterion => criterion row) (criteria q).

(** [query.all()], or iterating the query. *)
Definition all {A : Type} (q : t A) : M Session.t (list A) :=
  bind (Session.select (table q))
       (fun rows => ret (filter (accepts q) rows)).

(** [Column == value]: never true of a NULL column. *)
Definition column_is (column : option string) (value : string) : bool :=
  match column with
  | Some x => String.eqb x value
  | None => false
  end.

(** [Column.in_(values)], for a column that is not NULL. *)
Definition column_in (column : string) (values : list string) : bool :=
  existsb (String.eqb column) values.


End Query.

Module SubscrapeDBQueries.

(** [extrinsics_query] (lines 98-117): [None] for an argument that is
    left out. *)
Definition extrinsics_query (module call : option string)
           (extrinsic_ids : option (list string)) : Query.t Extrinsic.t :=
  let query := Query.from Session.extrinsics in
  let query :=
    match module with
    | Some m =>
        Query.filter_ query (fun e => Query.column_is (Extrinsic.module e) m)
    | None => query
    end in
  let query :=
    match call with
    | Some c =>
        Query.filter_ query (fun e => Query.column_is (Extrinsic.call e) c)
    | None => query
    end in
  let query :=
    match extrinsic_ids with
    | Some ids =>
        Query.filter_ query (fun e => Query.column_in (Extrinsic.id e) ids)
    | None => query
    end in
  query.


(** [events_query] (lines 132-148). *)
Definition events_query (module event : option string) : Query.t Event.t :=
  let query := Query.from Session.events in
  let query :=
    match module with
    | Some m =>
        Query.filter_ query (fun e => Query.column_is (Event.module e) m)
    | None => query
    end in
  let query :=
    match event with
    | Some ev =>
        Query.filter_ query (fun e => Query.column_is (Event.event e) ev)
    | None => query
    end in
  query.

(** A filter argument that was left out accepts every row. *)
Definition unless_given {A : Type} (arg : option A) (test : A -> bool)
  : bool :=
  match arg with
  | Some a => test a
  | None => true
  end.

(** The rows an extrinsics query is to return: all the supplied filters
    hold. *)
Definition extrinsic_selected (module call : option string)
           (extrinsic_ids : option (list string)) (e : Extrinsic.t) : bool :=
  unless_given module (Query.column_is (Extrinsic.module e))
  && unless_given call (Query.column_is (Extrinsic.call e))
  && unless_given extrinsic_ids (Query.column_in (Extrinsic.id e)).

Definition event_selected (module event : option string) (e : Event.t)
  : bool :=
  unless_given module (Query.column_is (Event.module e))
  && unless_given event (Query.column_is (Event.event e)).

End SubscrapeDBQueries.

(** ** Shapes of a configuration *)

Definition is_str (v : pyval) : bool :=
  match v with
  | PStr _ => true
  | _ => false
  end.

(** A value of a module that the call loop can walk: a dict, a list of
    strings, or a string. *)
Definition calls_walkable (calls : pyval) : bool :=
  match calls with
  | PDict _ => true
  | PList l => forallb is_str l
  | PStr _ => true
  | PNone | PBool _ | PInt _ => false
  end.

(** Every module of the dict that is not metadata has a walkable value
    (the value [modules[module]] gives for its key). *)
Definition modules_walkable (d : list (string * pyval)) : bool :=
  forallb (fun k => String.prefix "_" k
                    || match Py.lookup k d with
                       | Some calls => calls_walkable calls
                       | None => false
                       end)
          (Py.keys d).

(** The count [k] added to the count of a run. *)
Definition shift {S : Type} (k : Z) (r : result Z * S) : result Z * S :=
  match r with
  | (Ok n, st) => (Ok (k + n), st)
  | (Raise e, st) => (Raise e, st)
  end.

(** The events a run of [scrape_transfers] may add: the one scope
    derived from the accounts, fetches of transfers at that scope, and
    log lines. *)
Definition at_accounts_scope {Scope : Type} `{ScrapeConfigOps Scope}
           (chain_config : Scope) (accounts : pyval) (ev : event Scope)
  : Prop :=
  match ev with
  | CreateInner parent subtree => parent = chain_config /\ subtree = accounts
  | FetchTransfers _ config =>
      config = create_inner_config chain_config accounts
  | LogInfo _ | LogError _ => True
  | _ => False
  end.

Section FetchFunctions.

Context {Scope W : Type}.

(** A fetch function that always reports a count. *)
Definition never_fails
           (fetch_function : pyval -> pyval -> Scope -> M (RunState Scope W) Z)
  : Prop :=
  forall module call config st,
  exists n st', fetch_function module call config st = (Ok n, st').

End FetchFunctions.

Module DemoFailures.

(** An API whose event entry points fail. *)
Definition api : SubscanBase ScrapeConfig.t nat := {|
  fetch_extrinsics_index := fun _ _ _ w => (Ok 5, S w);
  fetch_extrinsics := fun _ w => (Ok 1, S w);
  fetch_events_index := fun _ _ _ w => (Raise (ExternalError "HTTP 500"), S w);
  fetch_events := fun _ w => (Raise (ExternalError "HTTP 500"), S w);
  fetch_transfers := fun _ _ w => (Ok 3, S w)
|}.

End DemoFailures.

Module DemoStore.

(** A session with three committed extrinsics. *)
Definition extrinsic_row (i : string) (m c : string) : Extrinsic.t :=
  {| Extrinsic.id := i; Extrinsic.block_number := None;
     Extrinsic.module := Some m; Extrinsic.call := Some c;
     Extrinsic.address := None; Extrinsic.nonce := None;
     Extrinsic.extrinsic_hash := None; Extrinsic.success := None;
     Extrinsic.params := None; Extrinsic.fee := None;
     Extrinsic.fee_used := None; Extrinsic.error := None;
     Extrinsic.finalized := None; Extrinsic.tip := None |}.

Definition extrinsics_table : Session.tables :=
  {| Session.blocks := [];
     Session.extrinsics :=
       [extrinsic_row "7-1" "bounties" "propose_bounty";
        extrinsic_row "7-2" "system" "remark";
        extrinsic_row "8-1" "bounties" "extend_bounty_expiry"];
     Session.events := [] |}.

Definition stored : Session.t :=
  {| Session.database := extrinsics_table; Session.pending := [] |}.

End DemoStore.

(** * Properties *)

(** ** The monad and the loop *)

Lemma bind_ext {S A B : Type} (c : M S A) (k k' : A -> M S B) st :
  (forall a st', k a st' = k' a st') -> bind c k st = bind c k' st.
Proof.
  intros Hk. unfold bind. destruct (c st) as [[a | e] st']; auto.
Qed.

Lemma for_each_ext {S A : Type} (body body' : pyval -> A -> M S A) xs :
  (forall x, In x xs -> forall acc st, body x acc st = body' x acc st) ->
  forall acc st, for_each body xs acc st = for_each body' xs acc st.
Proof.
  induction xs as [| x rest IH]; intros Hb acc st; simpl; [reflexivity |].
  unfold bind. rewrite (Hb x (or_introl eq_refl)).
  destruct (body' x acc st) as [[a | e] st']; [| reflexivity].
  apply IH. intros y Hy. apply Hb. now right.
Qed.

Lemma for_each_app {S A : Type} (body : pyval -> A -> M S A) xs ys :
  forall acc st,
    for_each body (xs ++ ys) acc st
    = bind (for_each body xs acc) (fun acc' => for_each body ys acc') st.
Proof.
  induction xs as [| x rest IH]; intros acc st; simpl; [reflexivity |].
  unfold bind.
  destruct (body x acc st) as [[a | e] st']; [| reflexivity].
  rewrite IH. reflexivity.
Qed.

(** A body that leaves an element alone lets the loop drop it. *)
Lemma for_each_skip {S A : Type} (body : pyval -> A -> M S A)
      (keep : pyval -> bool) xs :
  (forall x, In x xs -> keep x = false ->
             forall acc st, body x acc st = (Ok acc, st)) ->
  forall acc st,
    for_each body xs acc st = for_each body (filter keep xs) acc st.
Proof.
  induction xs as [| x rest IH]; intros Hb acc st; simpl; [reflexivity |].
  assert (Hrest : forall y, In y rest -> keep y = false ->
                            forall acc st, body y acc st = (Ok acc, st))
    by (intros y Hy; apply Hb; now right).
  destruct (keep x) eqn:Hk; simpl.
  - apply bind_ext. intros a st'. now apply IH.
  - unfold bind. rewrite (Hb x (or_introl eq_refl) Hk). now apply IH.
Qed.

(** ** The dispatcher *)

Import ParachainScraper.

Section DispatcherFacts.

Context {Scope : Type} `{ScrapeConfigOps Scope} {W : Type}.
Variable api : SubscanBase Scope W.

Local Open Scope py_scope.

Local Abbreviation State := (RunState Scope W).
Local Abbreviation Run := (M (RunState Scope W)).

(** *** Null-valued configurations *)

(** C1. With [modules = None] the walker derives the scope of the
    operation and then fails on [for module in modules]: it raises
    [TypeError] and [fetch_function] has not been called (the result
    is the same for every [fetch_function], and the only event is the
    scope derivation). *)
Theorem scrape_module_calls_none_raises :
  forall (fetch_function : pyval -> pyval -> Scope -> Run Z)
         (chain_config : Scope) (st : State),
    scrape_module_calls PNone chain_config fetch_function st
    = (Raise TypeError, emit (CreateInner chain_config PNone) st).
Proof. reflexivity. Qed.

(** The same through [scrape], on the configuration of the test
    [test_fetch_and_hydrate_extrinsic]. *)
Lemma scrape_extrinsics_none_raises :
  forall (chain_config : Scope) (st : State),
    scrape api (PDict [("_auto_hydrate", PBool true);
                       ("extrinsics", PNone);
                       ("_params", PDict [("block_num", PInt 15228214)])])
           chain_config st
    = (Raise TypeError, emit (CreateInner chain_config PNone) st).
Proof. reflexivity. Qed.

(** C3. A module whose value is [None] makes the walker fail on
    [for call in calls]: after the two scope derivations it raises
    [TypeError], whatever follows the module in the configuration and
    whatever [fetch_function] is. *)
Theorem scrape_module_calls_null_module_raises :
  forall (fetch_function : pyval -> pyval -> Scope -> Run Z)
         (chain_config : Scope) (module : string)
         (others : list (string * pyval)) (st : State),
    String.prefix "_" module = false ->
    let modules := PDict ((module, PNone) :: others) in
    let extrinsic_config := create_inner_config chain_config modules in
    scrape_module_calls modules chain_config fetch_function st
    = (Raise TypeError,
       emit (CreateInner extrinsic_config PNone)
            (emit (CreateInner chain_config modules) st)).
Proof.
  intros fetch_function chain_config module others st Hmeta.
  cbv zeta. unfold scrape_module_calls, derive, bind, lift. cbn.
  unfold bind, scrape_module, bind, lift, derive. cbn.
  rewrite Hmeta, String.eqb_refl. reflexivity.
Qed.

(** *** The transfers operation *)

Lemma scrape_transfers_none :
  forall (accounts : pyval) (chain_config : Scope) (st : State),
    (exists st', scrape_transfers api accounts chain_config st
                 = (Ok PNone, st'))
    \/ (exists e st', scrape_transfers api accounts chain_config st
                      = (Raise e, st')).
Proof.
  intros accounts chain_config st.
  unfold scrape_transfers, derive, bind, lift, ret.
  destruct (Py.iter accounts) as [l | e]; [| right; eauto].
  match goal with
  | |- context [for_each ?b l 0 ?s] =>
      destruct (for_each b l 0 s) as [[n | e] st']
  end; [left | right]; eauto.
Qed.

(** C2. [scrape_transfers] never evaluates to a count: when it does not
    raise it evaluates to [None]; and [scrape] on a [transfers]
    operation never returns a total, it raises. *)
Theorem scrape_transfers_drops_count :
  forall (accounts : pyval) (chain_config : Scope) (st : State),
    ((exists st', scrape_transfers api accounts chain_config st
                  = (Ok PNone, st'))
     \/ (exists e st', scrape_transfers api accounts chain_config st
                       = (Raise e, st')))
    /\ (exists e st',
           scrape api (PDict [("transfers", accounts)]) chain_config st
           = (Raise e, st')).
Proof.
  intros accounts chain_config st. split.
  - apply scrape_transfers_none.
  - unfold scrape, bind, lift. cbn -[scrape_transfers].
    unfold bind, lift. cbn -[scrape_transfers]. unfold bind.
    destruct (scrape_transfers_none accounts chain_config st)
      as [[st' Hr] | [e [st' Hr]]]; rewrite Hr; cbn; eauto.
Qed.

End DispatcherFacts.

(** On the demonstration API, whose [fetch_transfers] reports 3 items:
    the account is fetched, the count is lost, and [scrape] raises. *)
Example scrape_transfers_alice :
  scrape_transfers Demo.api (PDict [("alice", PNone)]) ScrapeConfig.root
                   Demo.start
  = (Ok PNone,
     {| world := 1%nat;
        trace := [CreateInner ScrapeConfig.root (PDict [("alice", PNone)]);
                  FetchTransfers (PStr "alice") ScrapeConfig.root] |})
  /\ scrape Demo.api (PDict [("transfers", PDict [("alice", PNone)])])
            ScrapeConfig.root Demo.start
     = (Raise TypeError,
        {| world := 1%nat;
           trace := [CreateInner ScrapeConfig.root (PDict [("alice", PNone)]);
                     FetchTransfers (PStr "alice") ScrapeConfig.root] |}).
Proof. split; reflexivity. Qed.

(** The configuration of the test [test_fetch_extrinsics_by_module]. *)
Lemma scrape_module_calls_null_module_raises_witness :
  String.prefix "_" "bounties" = false
  /\ scrape_module_calls (PDict [("bounties", PNone)]) ScrapeConfig.root
                         (api_fetch_extrinsics_index Demo.api) Demo.start
     = (Raise TypeError,
        emit (CreateInner
                (create_inner_config ScrapeConfig.root
                                     (PDict [("bounties", PNone)]))
                PNone)
             (emit (CreateInner ScrapeConfig.root
                                (PDict [("bounties", PNone)]))
                   Demo.start)).
Proof.
  split; [reflexivity |].
  apply (scrape_module_calls_null_module_raises
           (api_fetch_extrinsics_index Demo.api) ScrapeConfig.root
           "bounties" [] Demo.start).
  reflexivity.
Defined.

(** ** Walking the tree *)

Lemma lookup_other (k s : string) (v : pyval)
      (before after : list (string * pyval)) :
  s <> k ->
  Py.lookup s (before ++ (k, v) :: after) = Py.lookup s (before ++ after).
Proof.
  intros Hne. induction before as [| [k' v'] rest IH]; simpl.
  - destruct (String.eqb_spec s k); [contradiction | reflexivity].
  - now rewrite IH.
Qed.

Lemma getitem_other (x : pyval) (name k : string) (v : pyval)
      (before after : list (string * pyval)) :
  Py.eq_str x name = true ->
  recognized_operation name = true ->
  recognized_operation k = false ->
  Py.getitem (PDict (before ++ (k, v) :: after)) x
  = Py.getitem (PDict (before ++ after)) x.
Proof.
  intros Hx Hname Hk. destruct x; try discriminate. simpl in Hx.
  apply String.eqb_eq in Hx. subst s. simpl.
  rewrite lookup_other; [reflexivity |].
  intros ->. congruence.
Qed.

Section WalkFacts.

Context {Scope : Type} `{ScrapeConfigOps Scope} {W : Type}.
Variable api : SubscanBase Scope W.

Local Open Scope py_scope.

Local Abbreviation State := (RunState Scope W).
Local Abbreviation Run := (M (RunState Scope W)).

(** *** Unrecognized operations *)

Lemma scrape_operation_unrecognized
      (operations : pyval) (chain_config : Scope) (k : string)
      (acc : Z) (st : State) :
  String.prefix "_" k = false ->
  recognized_operation k = false ->
  scrape_operation api operations chain_config (PStr k) acc st
  = (Ok acc, emit (LogError (unrecognized_msg k)) st).
Proof.
  intros Hmeta Hk. unfold recognized_operation in Hk. simpl in Hk.
  repeat (apply orb_false_elim in Hk; destruct Hk as [? Hk]).
  unfold scrape_operation, bind, lift. simpl.
  rewrite Hmeta.
  repeat match goal with
         | Heq : String.eqb k _ = false |- _ => rewrite Heq; clear Heq
         end.
  reflexivity.
Qed.

(** The other keys are handled the same whether the unrecognized key
    is in the configuration or not. *)
Lemma scrape_operation_other
      (before after : list (string * pyval)) (k : string) (v : pyval)
      (chain_config : Scope) (x : pyval) (acc : Z) (st : State) :
  recognized_operation k = false ->
  scrape_operation api (PDict (before ++ (k, v) :: after)) chain_config
                   x acc st
  = scrape_operation api (PDict (before ++ after)) chain_config x acc st.
Proof.
  intros Hk. unfold scrape_operation.
  apply bind_ext. intros meta st1. destruct meta; [reflexivity |].
  repeat match goal with
         | |- (if Py.eq_str x ?name then _ else _) _ = _ =>
             destruct (Py.eq_str x name) eqn:?;
             [ unfold bind at 1 3;
               rewrite (getitem_other x name k v before after)
                 by (assumption || reflexivity);
               reflexivity | ]
         end.
  reflexivity.
Qed.

(** C4. A key that is neither metadata nor one of the five operations
    is reported on the error log and nothing else happens for it: the
    step returns normally with the count as it was. The keys before it
    and after it are processed exactly as they are in the
    configuration without the key, and the keys after it are still
    reached. *)
Theorem scrape_unrecognized_operation :
  forall (before after : list (string * pyval)) (k : string) (v : pyval)
         (chain_config : Scope) (st : State),
    String.prefix "_" k = false ->
    recognized_operation k = false ->
    let operations := PDict (before ++ (k, v) :: after) in
    let siblings := PDict (before ++ after) in
    let walk := for_each (scrape_operation api siblings chain_config) in
    (forall acc st0,
        scrape_operation api operations chain_config (PStr k) acc st0
        = (Ok acc, emit (LogError (unrecognized_msg k)) st0))
    /\ scrape api operations chain_config st
       = (n <- walk (map PStr (Py.keys before)) 0 ;;
          log_error (unrecognized_msg k) ;;;
          walk (map PStr (Py.keys after)) n) st
    /\ scrape api siblings chain_config st
       = (n <- walk (map PStr (Py.keys before)) 0 ;;
          walk (map PStr (Py.keys after)) n) st.
Proof.
  intros before after k v chain_config st Hmeta Hk. cbv zeta.
  split; [| split].
  - intros acc st0. now apply scrape_operation_unrecognized.
  - unfold scrape. unfold bind at 1, lift. simpl Py.iter. cbv iota beta.
    unfold Py.keys. rewrite !map_app. simpl map.
    rewrite (for_each_ext _ (scrape_operation api (PDict (before ++ after))
                                              chain_config))
      by (intros; now apply scrape_operation_other).
    rewrite for_each_app. apply bind_ext. intros n st1.
    simpl for_each. unfold bind at 1.
    rewrite scrape_operation_unrecognized by assumption.
    reflexivity.
  - unfold scrape. unfold bind at 1, lift. simpl Py.iter. cbv iota beta.
    unfold Py.keys. rewrite !map_app. now rewrite for_each_app.
Qed.

(** *** Metadata keys *)

(** C5. At each of the four levels of the walk, the step for a key
    that begins with an underscore returns at once: the count and the
    whole state (the world and the trace, so no call of the API, no
    derived scope, no log line) are as they were. *)
Theorem metadata_keys_are_skipped :
  forall (key : string),
    String.prefix "_" key = true ->
    (forall operations chain_config acc (st : State),
        scrape_operation api operations chain_config (PStr key) acc st
        = (Ok acc, st))
    /\ (forall (fetch_function : pyval -> pyval -> Scope -> Run Z)
               modules extrinsic_config acc (st : State),
           scrape_module fetch_function modules extrinsic_config
                         (PStr key) acc st
           = (Ok acc, st))
    /\ (forall (fetch_function : pyval -> pyval -> Scope -> Run Z)
               module calls module_config acc (st : State),
           scrape_call fetch_function module calls module_config
                       (PStr key) acc st
           = (Ok acc, st))
    /\ (forall accounts accounts_config acc (st : State),
           scrape_account api accounts accounts_config (PStr key) acc st
           = (Ok acc, st)).
Proof.
  intros key Hmeta. repeat split; intros;
    unfold scrape_operation, scrape_module, scrape_call, scrape_account,
      bind, lift; simpl; rewrite Hmeta; reflexivity.
Qed.

(** Each loop of the walk runs as if the metadata keys were not among
    the keys it iterates. *)
Lemma walks_drop_metadata :
  (forall operations chain_config xs acc (st : State),
      for_each (scrape_operation api operations chain_config) xs acc st
      = for_each (scrape_operation api operations chain_config)
                 (data_keys xs) acc st)
  /\ (forall (fetch_function : pyval -> pyval -> Scope -> Run Z)
             modules extrinsic_config xs acc (st : State),
         for_each (scrape_module fetch_function modules extrinsic_config)
                  xs acc st
         = for_each (scrape_module fetch_function modules extrinsic_config)
                    (data_keys xs) acc st)
  /\ (forall (fetch_function : pyval -> pyval -> Scope -> Run Z)
             module calls module_config xs acc (st : State),
         for_each (scrape_call fetch_function module calls module_config)
                  xs acc st
         = for_each (scrape_call fetch_function module calls module_config)
                    (data_keys xs) acc st)
  /\ (forall accounts accounts_config xs acc (st : State),
         for_each (scrape_account api accounts accounts_config) xs acc st
         = for_each (scrape_account api accounts accounts_config)
                    (data_keys xs) acc st).
Proof.
  repeat split; intros; unfold data_keys; apply for_each_skip;
    intros x _ Hx acc0 st0; apply negb_false_iff in Hx;
    unfold is_metadata in Hx;
    unfold scrape_operation, scrape_module, scrape_call, scrape_account,
      bind, lift;
    destruct (Py.startswith_underscore x) as [[|] |]; try discriminate;
    reflexivity.
Qed.

(** *** Skip directives *)

(** C6. When the scope deduced for a (module, call) pair has the skip
    flag set, the step for the pair logs the skip and returns the
    count as it was; [fetch_function] takes no part in it and the
    world is untouched. The loop goes on with the calls that follow. *)
Theorem skipped_call_is_not_fetched :
  forall (fetch_function : pyval -> pyval -> Scope -> Run Z)
         (module calls : pyval) (module_config call_config : Scope)
         (call : pyval) (rest : list pyval) (acc : Z) (st st1 : State),
    Py.startswith_underscore call = Ok false ->
    deduce_call_config module_config calls call st = (Ok call_config, st1) ->
    skip call_config = true ->
    scrape_call fetch_function module calls module_config call acc st
    = (Ok acc, emit (LogInfo (skip_msg module call)) st1)
    /\ world st1 = world st
    /\ for_each (scrape_call fetch_function module calls module_config)
                (call :: rest) acc st
       = for_each (scrape_call fetch_function module calls module_config)
                  rest acc (emit (LogInfo (skip_msg module call)) st1).
Proof.
  intros fetch_function module calls module_config call_config call rest
         acc st st1 Hmeta Hcfg Hskip.
  assert (Hstep :
            scrape_call fetch_function module calls module_config call acc st
            = (Ok acc, emit (LogInfo (skip_msg module call)) st1)).
  { unfold scrape_call, bind at 1, lift. rewrite Hmeta.
    unfold bind at 1. rewrite Hcfg, Hskip. reflexivity. }
  split; [exact Hstep | split].
  - unfold deduce_call_config in Hcfg.
    destruct (Py.is_dict calls).
    + unfold bind, lift, derive in Hcfg.
      destruct (Py.getitem calls call); inversion Hcfg; reflexivity.
    + inversion Hcfg; reflexivity.
  - simpl. unfold bind at 1. now rewrite Hstep.
Qed.

(** *** List-shaped and map-shaped modules *)

(** C7. The scope of a call is the scope of the module, and no scope is
    derived, unless the value of the module is a dict; then it is
    derived from [calls[call]]. For a list the whole call loop runs at
    the scope of the module. *)
Theorem call_scope_by_shape :
  forall (fetch_function : pyval -> pyval -> Scope -> Run Z)
         (module : pyval) (module_config : Scope),
    (forall calls call (st : State),
        deduce_call_config module_config calls call st
        = match calls with
          | PDict d =>
              match Py.getitem (PDict d) call with
              | Ok sub => (Ok (create_inner_config module_config sub),
                           emit (CreateInner module_config sub) st)
              | Raise e => (Raise e, st)
              end
          | _ => (Ok module_config, st)
          end)
    /\ (forall (l xs : list pyval) acc (st : State),
           for_each (scrape_call fetch_function module (PList l)
                                 module_config) xs acc st
           = for_each (scrape_call_at_module_scope fetch_function module
                                                   module_config)
                      xs acc st).
Proof.
  intros fetch_function module module_config. split.
  - intros calls call st. unfold deduce_call_config.
    destruct calls; reflexivity.
  - intros l xs acc st. apply for_each_ext. intros x _ acc0 st0.
    reflexivity.
Qed.

End WalkFacts.

(** ** What reaches the API *)

Section TraceFacts.

Context {Scope : Type} `{ScrapeConfigOps Scope} {W : Type}.
Variable api : SubscanBase Scope W.
Variable P : event Scope -> Prop.

Local Open Scope py_scope.
Local Open Scope list_scope.

Local Abbreviation State := (RunState Scope W).
Local Abbreviation Run := (M (RunState Scope W)).

Lemma appends_ret {A : Type} (a : A) : appends P (ret a : Run A).
Proof. intros st. exists []. simpl. now rewrite app_nil_r. Qed.

Lemma appends_raise {A : Type} (e : exn) : appends P (raise e : Run A).
Proof. intros st. exists []. simpl. now rewrite app_nil_r. Qed.

Lemma appends_bind {A B : Type} (c : Run A) (k : A -> Run B) :
  appends P c ->
  (forall a st st', c st = (Ok a, st') -> appends P (k a)) ->
  appends P (bind c k).
Proof.
  intros Hc Hk st. unfold bind.
  destruct (Hc st) as [evs [Htr Hevs]].
  destruct (c st) as [[a | e] st'] eqn:Hrun; simpl in Htr.
  - destruct (Hk a st st' Hrun st') as [evs' [Htr' Hevs']].
    exists (evs ++ evs'). split.
    + now rewrite Htr', Htr, app_assoc.
    + now apply Forall_app.
  - exists evs. now split.
Qed.

Lemma appends_lift {A B : Type} (r : result A) (k : A -> Run B) :
  (forall a, r = Ok a -> appends P (k a)) ->
  appends P (bind (lift r) k).
Proof.
  intros Hk. apply appends_bind.
  - intros st. exists []. simpl. now rewrite app_nil_r.
  - intros a st st' Hrun. apply Hk. unfold lift in Hrun. congruence.
Qed.

Lemma appends_emit (ev : event Scope) (st : State) :
  P ev ->
  exists evs, trace (emit ev st) = trace st ++ evs /\ Forall P evs.
Proof. intros Hev. exists [ev]. split; [reflexivity | now constructor]. Qed.

Lemma appends_log_info (msg : string) :
  P (LogInfo msg) -> appends P (log_info msg : Run unit).
Proof. intros Hev st. now apply appends_emit. Qed.

Lemma appends_log_error (msg : string) :
  P (LogError msg) -> appends P (log_error msg : Run unit).
Proof. intros Hev st. now apply appends_emit. Qed.

Lemma appends_derive (parent : Scope) (subtree : pyval) :
  P (CreateInner parent subtree) ->
  appends P (derive parent subtree : Run Scope).
Proof. intros Hev st. now apply appends_emit. Qed.

Lemma appends_call_api (ev : event Scope) (f : W -> result Z * W) :
  P ev -> appends P (call_api ev f).
Proof.
  intros Hev st. unfold call_api. destruct (f (world st)) as [r w'].
  exists [ev]. split; [reflexivity | now constructor].
Qed.

Lemma appends_for_each {A : Type} (body : pyval -> A -> Run A) xs :
  (forall x acc, In x xs -> appends P (body x acc)) ->
  forall acc, appends P (for_each body xs acc).
Proof.
  induction xs as [| x rest IH]; intros Hb acc; simpl.
  - apply appends_ret.
  - apply appends_bind; [apply Hb; now left |].
    intros a _ _ _. apply IH. intros y acc' Hy. apply Hb. now right.
Qed.

End TraceFacts.

Section FetchedNames.

Context {Scope : Type} `{ScrapeConfigOps Scope} {W : Type}.
Variable api : SubscanBase Scope W.

Local Open Scope py_scope.

Local Abbreviation Run := (M (RunState Scope W)).

(** A fetch function that is handed data keys only tells so in the
    trace. *)
Definition well_traced (fetch_function : pyval -> pyval -> Scope -> Run Z)
  : Prop :=
  forall module call config,
    is_data_key module -> is_data_key call ->
    appends names_data_keys (fetch_function module call config).

Lemma api_fetch_extrinsics_index_well_traced :
  well_traced (api_fetch_extrinsics_index api).
Proof.
  intros module call config Hm Hc. apply appends_call_api. now split.
Qed.

Lemma api_fetch_events_index_well_traced :
  well_traced (api_fetch_events_index api).
Proof.
  intros module call config Hm Hc. apply appends_call_api. now split.
Qed.

Lemma scrape_module_calls_names_data_keys
      (fetch_function : pyval -> pyval -> Scope -> Run Z)
      (modules : pyval) (chain_config : Scope) :
  well_traced fetch_function ->
  appends names_data_keys
          (scrape_module_calls modules chain_config fetch_function).
Proof.
  intros Hfetch. unfold scrape_module_calls.
  apply appends_bind; [apply appends_derive; exact I |].
  intros extrinsic_config _ _ _.
  apply appends_lift. intros module_list _.
  apply appends_for_each. intros module acc _.
  unfold scrape_module.
  apply appends_lift. intros [|] Hmodule; [apply appends_ret |].
  apply appends_lift. intros calls _.
  apply appends_bind; [apply appends_derive; exact I |].
  intros module_config _ _ _.
  apply appends_lift. intros call_list _.
  apply appends_for_each. intros call acc' _.
  unfold scrape_call.
  apply appends_lift. intros [|] Hcall; [apply appends_ret |].
  apply appends_bind.
  { unfold deduce_call_config. destruct (Py.is_dict calls).
    - apply appends_lift. intros sub _. apply appends_derive. exact I.
    - apply appends_ret. }
  intros call_config _ _ _. destruct (skip call_config).
  - apply appends_bind; [apply appends_log_info; exact I |].
    intros; apply appends_ret.
  - apply appends_bind; [now apply Hfetch |].
    intros; apply appends_ret.
Qed.

Lemma scrape_transfers_names_data_keys
      (accounts : pyval) (chain_config : Scope) :
  appends names_data_keys (scrape_transfers api accounts chain_config).
Proof.
  unfold scrape_transfers.
  apply appends_bind; [apply appends_derive; exact I |].
  intros accounts_config _ _ _.
  apply appends_lift. intros account_list _.
  apply appends_bind; [| intros; apply appends_ret].
  apply appends_for_each. intros account acc _.
  unfold scrape_account.
  apply appends_lift. intros [|] Haccount; [apply appends_ret |].
  apply appends_bind.
  { destruct (Py.is_dict account).
    - apply appends_lift. intros sub _. apply appends_derive. exact I.
    - apply appends_ret. }
  intros account_config _ _ _. destruct (skip account_config).
  - apply appends_bind; [apply appends_log_info; exact I |].
    intros; apply appends_ret.
  - apply appends_bind; [apply appends_call_api; exact Haccount |].
    intros; apply appends_ret.
Qed.

(** Whatever the configuration, every module, call and account name
    that a run of [scrape] hands to the API passed the metadata test: no
    key with the underscore prefix reaches it. *)
Lemma scrape_names_data_keys (operations : pyval) (chain_config : Scope) :
  appends names_data_keys (scrape api operations chain_config).
Proof.
  unfold scrape.
  apply appends_lift. intros operation_list _.
  apply appends_for_each. intros operation acc _.
  unfold scrape_operation.
  apply appends_lift. intros [|] Hoperation; [apply appends_ret |].
  repeat match goal with
         | |- appends _ (if ?c then _ else _) => destruct c
         end.
  - apply appends_lift. intros modules _.
    apply appends_bind; [| intros; apply appends_ret].
    apply scrape_module_calls_names_data_keys.
    apply api_fetch_extrinsics_index_well_traced.
  - apply appends_lift. intros ids _.
    apply appends_bind; [| intros; apply appends_ret].
    apply appends_call_api. exact I.
  - apply appends_lift. intros modules _.
    apply appends_bind; [| intros; apply appends_ret].
    apply scrape_module_calls_names_data_keys.
    apply api_fetch_events_index_well_traced.
  - apply appends_lift. intros ids _.
    apply appends_bind; [| intros; apply appends_ret].
    apply appends_call_api. exact I.
  - apply appends_lift. intros accounts _.
    apply appends_bind; [apply scrape_transfers_names_data_keys |].
    intros r _ _ _.
    apply appends_bind; [apply appends_raise | intros; apply appends_ret].
  - apply appends_bind; [apply appends_log_error; exact I |].
    intros; apply appends_ret.
Qed.

End FetchedNames.

(** Worked instances on the demonstration API. *)

(** The module/call scenario of the tests: one index fetch, for the pair
    (bounties, propose_bounty), at the scope of the module. *)
Example scrape_bounties_propose_bounty :
  scrape Demo.api
         (PDict [("_auto_hydrate", PBool false);
                 ("extrinsics",
                  PDict [("bounties", PList [PStr "propose_bounty"])])])
         ScrapeConfig.root Demo.start
  = (Ok 5,
     {| world := 1%nat;
        trace :=
          [CreateInner ScrapeConfig.root
                       (PDict [("bounties", PList [PStr "propose_bounty"])]);
           CreateInner ScrapeConfig.root (PList [PStr "propose_bounty"]);
           FetchExtrinsicsIndex (PStr "bounties") (PStr "propose_bounty")
                                ScrapeConfig.root] |}).
Proof. reflexivity. Qed.

Lemma scrape_unrecognized_operation_witness :
  String.prefix "_" "bogus" = false
  /\ recognized_operation "bogus" = false
  /\ scrape Demo.api
            (PDict [("extrinsics-list", PList [PStr "14238250-2"]);
                    ("bogus", PNone);
                    ("events-list", PList [PStr "14238250-5"])])
            ScrapeConfig.root Demo.start
     = (Ok 3,
        {| world := 2%nat;
           trace := [FetchExtrinsics (PList [PStr "14238250-2"]);
                     LogError (unrecognized_msg "bogus");
                     FetchEvents (PList [PStr "14238250-5"])] |}).
Proof.
  split; [reflexivity | split; [reflexivity |]].
  rewrite (proj1 (proj2 (scrape_unrecognized_operation
                           Demo.api
                           [("extrinsics-list", PList [PStr "14238250-2"])]
                           [("events-list", PList [PStr "14238250-5"])]
                           "bogus" PNone ScrapeConfig.root Demo.start
                           eq_refl eq_refl))).
  reflexivity.
Defined.

Lemma metadata_keys_are_skipped_witness :
  String.prefix "_" "_params" = true
  /\ scrape_operation Demo.api
                      (PDict [("_params", PDict [("block_num", PInt 15228214)])])
                      ScrapeConfig.root (PStr "_params") 0 Demo.start
     = (Ok 0, Demo.start).
Proof.
  split; [reflexivity |].
  apply (proj1 (metadata_keys_are_skipped Demo.api "_params" eq_refl)).
Defined.

Lemma skipped_call_is_not_fetched_witness :
  let calls := PDict [("Deposit", PDict [("_skip", PBool true)]);
                      ("Transfer", PNone)] in
  let call_config := create_inner_config ScrapeConfig.root
                                         (PDict [("_skip", PBool true)]) in
  let st1 := emit (CreateInner ScrapeConfig.root
                               (PDict [("_skip", PBool true)])) Demo.start in
  Py.startswith_underscore (PStr "Deposit") = Ok false
  /\ deduce_call_config ScrapeConfig.root calls (PStr "Deposit") Demo.start
     = (Ok call_config, st1)
  /\ skip call_config = true
  /\ scrape_call (api_fetch_events_index Demo.api) (PStr "balances") calls
                 ScrapeConfig.root (PStr "Deposit") 0 Demo.start
     = (Ok 0, emit (LogInfo (skip_msg (PStr "balances") (PStr "Deposit"))) st1).
Proof.
  cbv zeta.
  split; [reflexivity | split; [reflexivity | split; [reflexivity |]]].
  refine (proj1 (skipped_call_is_not_fetched
                  (api_fetch_events_index Demo.api) (PStr "balances")
                  (PDict [("Deposit", PDict [("_skip", PBool true)]);
                          ("Transfer", PNone)])
                  ScrapeConfig.root
                  (create_inner_config ScrapeConfig.root
                                       (PDict [("_skip", PBool true)]))
                  (PStr "Deposit") [PStr "Transfer"] 0 Demo.start
                  (emit (CreateInner ScrapeConfig.root
                                     (PDict [("_skip", PBool true)]))
                        Demo.start)
                  _ _ _)); reflexivity.
Defined.

(** ** The cache store *)

Section StoreFacts.

Import SubscrapeDB.
Local Open Scope list_scope.

(** *** Missing events *)

Lemma matches_cover_index_list (rows : list Event.t)
      (index_list : list string) (index : string) :
  In index index_list ->
  existsb (String.eqb index)
          (map Event.id
               (filter (fun e => existsb (String.eqb (Event.id e)) index_list)
                       rows))
  = existsb (fun e => String.eqb (Event.id e) index) rows.
Proof.
  intros Hin. induction rows as [| e rest IH]; simpl; [reflexivity |].
  destruct (existsb (String.eqb (Event.id e)) index_list) eqn:Hsel; simpl.
  - rewrite IH. now rewrite (String.eqb_sym index).
  - rewrite IH.
    destruct (String.eqb_spec (Event.id e) index) as [Heq | Hne];
      [| reflexivity].
    exfalso. subst index.
    assert (Hex : existsb (String.eqb (Event.id e)) index_list = true)
      by (apply existsb_exists; exists (Event.id e); split;
          [assumption | apply String.eqb_refl]).
    congruence.
Qed.

(** What the specification's function gives: an id of the result is an
    id of the input that no row carries. *)
Lemma missing_ids_spec_in (rows : list Event.t) (candidate_ids : list string)
      (i : string) :
  In i (missing_ids_spec rows candidate_ids)
  <-> In i candidate_ids /\ ~ In i (map Event.id rows).
Proof.
  unfold missing_ids_spec. rewrite filter_In, negb_true_iff.
  split; intros [Hin Hno]; split; try assumption.
  - intros Hrow. apply in_map_iff in Hrow as [e [Hid He]].
    assert (Hex : existsb (fun e => String.eqb (Event.id e) i) rows = true)
      by (apply existsb_exists; exists e; split;
          [assumption | now apply String.eqb_eq]).
    congruence.
  - destruct (existsb _ rows) eqn:Hex; [| reflexivity].
    exfalso. apply Hno. apply existsb_exists in Hex as [e [He Hid]].
    apply String.eqb_eq in Hid. apply in_map_iff. now exists e.
Qed.

(** C8. On a session that sees the rows [tb] (the committed ones and
    the staged ones) the function returns the ids of the input list that
    are not the id of an Event row, each as often and in the order it
    occurs in the input list, and leaves the session as it was. *)
Theorem missing_events_from_index_list_spec :
  forall (index_list : list string) (s : Session.t) (tb : Session.tables),
    Session.visible s = Ok tb ->
    missing_events_from_index_list index_list s
    = (Ok (missing_ids_spec (Session.events tb) index_list), s).
Proof.
  intros index_list s tb Hvis.
  unfold missing_events_from_index_list, Session.query_events_id_in,
    Session.select, bind, ret.
  rewrite Hvis. f_equal. f_equal.
  unfold missing_ids_spec. apply filter_ext_in. intros index Hin.
  unfold not_in_ids. now rewrite matches_cover_index_list.
Qed.

(** When the staged rows clash the query raises before it reads, and
    the transaction is abandoned. *)
Lemma missing_events_from_index_list_raises
      (index_list : list string) (s : Session.t) (e : exn) :
  Session.visible s = Raise e ->
  missing_events_from_index_list index_list s
  = (Raise e, Session.rollback s).
Proof.
  intros Hvis.
  unfold missing_events_from_index_list, Session.query_events_id_in,
    Session.select, bind.
  now rewrite Hvis.
Qed.

(** *** Staging and committing *)

Lemma insert_all_app (xs ys : list item) (tb : Session.tables) :
  Session.insert_all (xs ++ ys) tb
  = match Session.insert_all xs tb with
    | Ok tb' => Session.insert_all ys tb'
    | Raise e => Raise e
    end.
Proof.
  revert tb. induction xs as [| x rest IH]; intros tb; simpl;
    [reflexivity |].
  destruct (Session.insert x tb); [apply IH | reflexivity].
Qed.

Lemma insert_raises_integrity (it : item) (tb : Session.tables) (e : exn) :
  Session.insert it tb = Raise e -> e = IntegrityError.
Proof.
  destruct it; simpl;
    match goal with |- context [if ?c then _ else _] => destruct c end;
    congruence.
Qed.

Lemma insert_all_raises_integrity (its : list item) (tb : Session.tables)
      (e : exn) :
  Session.insert_all its tb = Raise e -> e = IntegrityError.
Proof.
  revert tb. induction its as [| it rest IH]; intros tb; simpl;
    [discriminate |].
  destruct (Session.insert it tb) eqn:Hins; [apply IH |].
  intros Heq. inversion Heq; subst. eapply insert_raises_integrity; eauto.
Qed.

Lemma existsb_snoc {A : Type} (f : A -> bool) (l : list A) (a : A) :
  existsb f (l ++ [a]) = existsb f l || f a.
Proof. rewrite existsb_app. simpl. now rewrite orb_false_r. Qed.

(** Once a row is inserted, a second row with its key is refused. *)
Lemma insert_then_same_key (a b : item) (tb tb' : Session.tables) :
  same_primary_key a b = true ->
  Session.insert a tb = Ok tb' ->
  Session.insert b tb' = Raise IntegrityError.
Proof.
  intros Hkey Hins.
  destruct a as [x | x | x], b as [y | y | y]; try discriminate;
    simpl in Hkey, Hins |- *.
  - destruct (Session.has_block _ tb); [discriminate |].
    inversion Hins; subst; clear Hins.
    unfold Session.has_block. simpl. rewrite existsb_snoc, Hkey.
    now rewrite orb_true_r.
  - destruct (Session.has_extrinsic _ tb); [discriminate |].
    inversion Hins; subst; clear Hins.
    unfold Session.has_extrinsic. simpl. rewrite existsb_snoc, Hkey.
    now rewrite orb_true_r.
  - destruct (Session.has_event _ tb); [discriminate |].
    inversion Hins; subst; clear Hins.
    unfold Session.has_event. simpl. rewrite existsb_snoc, Hkey.
    now rewrite orb_true_r.
Qed.

(** C9. [write_item] returns normally, appends the record to the
    staged ones and leaves the committed rows alone. Two records with
    the same primary key, written one after the other and then
    flushed, make [flush] raise the integrity error of the unique
    constraint, and the committed rows are those from before the two
    writes: neither record is stored, none replaces a row. *)
Theorem write_is_staged_and_duplicates_fail :
  (forall (it : item) (s : Session.t),
      fst (write_item it s) = Ok tt
      /\ Session.database (snd (write_item it s)) = Session.database s
      /\ Session.pending (snd (write_item it s)) = Session.pending s ++ [it])
  /\ (forall (a b : item) (s : Session.t),
         same_primary_key a b = true ->
         let s2 := snd (write_item b (snd (write_item a s))) in
         fst (flush s2) = Raise IntegrityError
         /\ Session.database (snd (flush s2)) = Session.database s).
Proof.
  split.
  - intros it s. repeat split.
  - intros a b s Hkey. cbv zeta.
    unfold flush, Session.commit, write_item, Session.add, Session.visible.
    simpl. rewrite <- app_assoc. simpl.
    destruct (Session.insert_all (Session.pending s ++ [a; b])
                                 (Session.database s)) as [tb | e] eqn:Hall.
    + exfalso. rewrite insert_all_app in Hall.
      destruct (Session.insert_all (Session.pending s) (Session.database s))
        as [tb0 |]; [| discriminate].
      simpl in Hall.
      destruct (Session.insert a tb0) as [tb1 |] eqn:Ha; [| discriminate].
      rewrite (insert_then_same_key a b tb0 tb1 Hkey Ha) in Hall.
      discriminate.
    + simpl. split; [| reflexivity].
      f_equal. eapply insert_all_raises_integrity; eauto.
Qed.

(** *** Reading an event *)

(** C10. [read_event] and [read_event_metadata] give the same result
    and leave the same session, for every id and every session. *)
Theorem read_event_metadata_is_read_event :
  forall (event_id : string) (s : Session.t),
    read_event event_id s = read_event_metadata event_id s.
Proof. reflexivity. Qed.

End StoreFacts.

Lemma missing_events_from_index_list_spec_witness :
  Session.visible Demo.cached = Ok Demo.cached_rows
  /\ SubscrapeDB.missing_events_from_index_list
       ["100-2"; "200-7"; "100-1"; "100-4"; "200-7"] Demo.cached
     = (Ok ["200-7"; "100-4"; "200-7"], Demo.cached).
Proof.
  split; [reflexivity |].
  apply (missing_events_from_index_list_spec
           ["100-2"; "200-7"; "100-1"; "100-4"; "200-7"]
           Demo.cached Demo.cached_rows).
  reflexivity.
Defined.

Lemma write_is_staged_and_duplicates_fail_witness :
  let a := EventItem (Demo.event_row "100-1") in
  let b := EventItem Demo.renamed_row in
  let s2 := snd (SubscrapeDB.write_item
                   b (snd (SubscrapeDB.write_item a Demo.fresh))) in
  SubscrapeDB.same_primary_key a b = true
  /\ fst (SubscrapeDB.flush s2) = Raise IntegrityError
  /\ Session.database (snd (SubscrapeDB.flush s2))
     = Session.database Demo.fresh.
Proof.
  cbv zeta. split; [reflexivity |].
  apply (proj2 write_is_staged_and_duplicates_fail
               (EventItem (Demo.event_row "100-1"))
               (EventItem Demo.renamed_row) Demo.fresh).
  reflexivity.
Defined.

(** * Further properties of the dispatcher *)

Section WalkOutcomes.

Context {Scope : Type} `{ScrapeConfigOps Scope} {W : Type}.
Variable api : SubscanBase Scope W.

Local Open Scope py_scope.
Local Open Scope list_scope.

Local Abbreviation State := (RunState Scope W).
Local Abbreviation Run := (M (RunState Scope W)).

(** *** Configurations of metadata only *)

Lemma for_each_all_skipped {A : Type} (body : pyval -> A -> Run A) xs :
  (forall x, In x xs -> forall acc st, body x acc st = (Ok acc, st)) ->
  forall acc st, for_each body xs acc st = (Ok acc, st).
Proof.
  induction xs as [| x rest IH]; intros Hb acc st; simpl; [reflexivity |].
  unfold bind. rewrite (Hb x (or_introl eq_refl)).
  apply IH. intros y Hy. apply Hb. now right.
Qed.

Lemma metadata_key_in (d : list (string * pyval)) (x : pyval) :
  forallb (String.prefix "_") (Py.keys d) = true ->
  In x (map PStr (Py.keys d)) ->
  Py.startswith_underscore x = Ok true.
Proof.
  intros Hall Hin. apply in_map_iff in Hin as [k [<- Hk]].
  rewrite forallb_forall in Hall. simpl. now rewrite (Hall k Hk).
Qed.

(** A configuration whose keys are all metadata scrapes nothing:
    [scrape] returns 0 and leaves the world and the trace as they were;
    [scrape_module_calls] returns 0 after deriving the scope of the
    operation, without any call of the fetch function. *)
Theorem only_metadata_scrapes_nothing :
  forall (d : list (string * pyval)) (chain_config : Scope) (st : State),
    forallb (String.prefix "_") (Py.keys d) = true ->
    scrape api (PDict d) chain_config st = (Ok 0, st)
    /\ forall fetch_function : pyval -> pyval -> Scope -> Run Z,
        scrape_module_calls (PDict d) chain_config fetch_function st
        = (Ok 0, emit (CreateInner chain_config (PDict d)) st).
Proof.
  intros d chain_config st Hall. split.
  - unfold scrape, bind at 1, lift. simpl Py.iter. cbv iota beta.
    apply for_each_all_skipped. intros x Hx acc st0.
    unfold scrape_operation, bind, lift.
    now rewrite (metadata_key_in d x Hall Hx).
  - intros fetch_function.
    unfold scrape_module_calls, bind at 1, derive.
    unfold bind at 1, lift. simpl Py.iter. cbv iota beta.
    apply for_each_all_skipped. intros x Hx acc st0.
    unfold scrape_module, bind, lift.
    now rewrite (metadata_key_in d x Hall Hx).
Qed.

(** *** Failures stop the walk *)

(** When the step for one operation raises, [scrape] raises the same
    exception and ends in the state of the failure: the operations after
    it are not started. *)
Theorem scrape_stops_at_first_failure :
  forall (d : list (string * pyval)) (chain_config : Scope)
         (before after : list string) (k : string)
         (n : Z) (st st1 st2 : State) (e : exn),
    Py.keys d = before ++ k :: after ->
    for_each (scrape_operation api (PDict d) chain_config)
             (map PStr before) 0 st = (Ok n, st1) ->
    scrape_operation api (PDict d) chain_config (PStr k) n st1
    = (Raise e, st2) ->
    scrape api (PDict d) chain_config st = (Raise e, st2).
Proof.
  intros d chain_config before after k n st st1 st2 e Hkeys Hbefore Hstep.
  unfold scrape, bind at 1, lift. simpl Py.iter. cbv iota beta.
  rewrite Hkeys, map_app, for_each_app. unfold bind at 1.
  rewrite Hbefore. simpl. unfold bind at 1. now rewrite Hstep.
Qed.

(** *** The count is a sum *)

Lemma shift_shift {S : Type} (a b : Z) (r : result Z * S) :
  shift a (shift b r) = shift (a + b) r.
Proof. destruct r as [[n | e] st]; simpl; [| reflexivity]. f_equal. f_equal. lia. Qed.

Lemma for_each_shift (body : pyval -> Z -> Run Z) :
  (forall x acc st, body x acc st = shift acc (body x 0 st)) ->
  forall xs acc st, for_each body xs acc st = shift acc (for_each body xs 0 st).
Proof.
  intros Hb. induction xs as [| x rest IH]; intros acc st; simpl.
  - unfold ret. simpl. now rewrite Z.add_0_r.
  - unfold bind. rewrite (Hb x acc st).
    destruct (body x 0 st) as [[n | e] st']; simpl; [| reflexivity].
    rewrite (IH (acc + n)), (IH n). now rewrite shift_shift.
Qed.

Lemma scrape_call_shift
      (fetch_function : pyval -> pyval -> Scope -> Run Z)
      (module calls : pyval) (module_config : Scope) x acc st :
  scrape_call fetch_function module calls module_config x acc st
  = shift acc (scrape_call fetch_function module calls module_config x 0 st).
Proof.
  unfold scrape_call, bind, lift, ret.
  destruct (Py.startswith_underscore x) as [[|] | e]; simpl;
    try reflexivity; [now rewrite Z.add_0_r |].
  destruct (deduce_call_config module_config calls x st)
    as [[call_config | e] st1]; [| reflexivity].
  destruct (skip call_config).
  - simpl. now rewrite Z.add_0_r.
  - destruct (fetch_function module x call_config st1) as [[n | e] st2];
      reflexivity.
Qed.

Lemma scrape_module_shift
      (fetch_function : pyval -> pyval -> Scope -> Run Z)
      (modules : pyval) (extrinsic_config : Scope) x acc st :
  scrape_module fetch_function modules extrinsic_config x acc st
  = shift acc (scrape_module fetch_function modules extrinsic_config x 0 st).
Proof.
  unfold scrape_module, bind, lift, ret, derive.
  destruct (Py.startswith_underscore x) as [[|] | e]; simpl;
    try reflexivity; [now rewrite Z.add_0_r |].
  destruct (Py.getitem modules x) as [calls | e]; [| reflexivity].
  destruct (Py.iter calls) as [call_list | e]; [| reflexivity].
  apply for_each_shift. intros. apply scrape_call_shift.
Qed.

Lemma scrape_operation_shift
      (operations : pyval) (chain_config : Scope) x acc st :
  scrape_operation api operations chain_config x acc st
  = shift acc (scrape_operation api operations chain_config x 0 st).
Proof.
  unfold scrape_operation.
  unfold bind at 1 8, lift at 1 7.
  destruct (Py.startswith_underscore x) as [[|] | e]; simpl;
    try reflexivity; [unfold ret; simpl; now rewrite Z.add_0_r |].
  repeat match goal with
         | |- (if ?c then _ else _) _ = _ => destruct c
         end;
    try (unfold bind, lift, ret;
         match goal with
         | |- context [Py.getitem operations x] =>
             destruct (Py.getitem operations x) as [v | e0]; [| reflexivity]
         end;
         match goal with
         | |- context [match ?run with _ => _ end] =>
             destruct run as [[r | e1] st1]; reflexivity
         end).
  unfold bind, log_error, ret. simpl. now rewrite Z.add_0_r.
Qed.

(** The total [scrape] returns is the sum of the totals of its parts:
    when the keys of the configuration are cut in two, and the
    operations of the first part give [n1] and, from the state they
    leave, those of the second part give [n2], then [scrape] returns
    [n1 + n2]. *)
Theorem scrape_total_is_sum :
  forall (d : list (string * pyval)) (chain_config : Scope)
         (first second : list string) (n1 n2 : Z) (st st1 st2 : State),
    Py.keys d = first ++ second ->
    for_each (scrape_operation api (PDict d) chain_config)
             (map PStr first) 0 st = (Ok n1, st1) ->
    for_each (scrape_operation api (PDict d) chain_config)
             (map PStr second) 0 st1 = (Ok n2, st2) ->
    scrape api (PDict d) chain_config st = (Ok (n1 + n2), st2).
Proof.
  intros d chain_config first second n1 n2 st st1 st2 Hkeys H1 H2.
  unfold scrape, bind at 1, lift. simpl Py.iter. cbv iota beta.
  rewrite Hkeys, map_app, for_each_app. unfold bind at 1. rewrite H1.
  rewrite for_each_shift by (intros; apply scrape_operation_shift).
  now rewrite H2.
Qed.

End WalkOutcomes.

(** *** Which configurations the module walk accepts *)

Section WalkShapes.

Context {Scope : Type} `{ScrapeConfigOps Scope} {W : Type}.

Local Open Scope py_scope.
Local Open Scope list_scope.

Local Abbreviation State := (RunState Scope W).
Local Abbreviation Run := (M (RunState Scope W)).

Lemma for_each_returns {A : Type} (body : pyval -> A -> Run A) xs :
  (forall x, In x xs -> forall acc st, exists a st', body x acc st = (Ok a, st')) ->
  forall acc st, exists a st', for_each body xs acc st = (Ok a, st').
Proof.
  induction xs as [| x rest IH]; intros Hb acc st; simpl.
  - now exists acc, st.
  - unfold bind.
    destruct (Hb x (or_introl eq_refl) acc st) as [a [st' ->]].
    apply IH. intros y Hy. apply Hb. now right.
Qed.

Lemma for_each_raises {A : Type} (body : pyval -> A -> Run A) xs x :
  In x xs ->
  (forall acc st, exists e st', body x acc st = (Raise e, st')) ->
  forall acc st, exists e st', for_each body xs acc st = (Raise e, st').
Proof.
  intros Hin Hx. induction xs as [| y rest IH]; [contradiction |].
  intros acc st. simpl. unfold bind.
  destruct (body y acc st) as [[a | e] st'] eqn:Hy; [| eauto].
  destruct Hin as [-> | Hin]; [| now apply IH].
  destruct (Hx acc st) as [e [st'' Hr]]. congruence.
Qed.

Lemma chars_are_strings (s : string) : forallb is_str (Py.chars s) = true.
Proof. induction s as [| c rest IH]; simpl; [reflexivity | exact IH]. Qed.

Lemma keys_are_strings (ks : list string) : forallb is_str (map PStr ks) = true.
Proof. induction ks as [| k rest IH]; simpl; [reflexivity | exact IH]. Qed.

(** What a walkable value iterates to: strings only; and when the value
    is a dict, keys of the dict. *)
Lemma walkable_iter (calls : pyval) :
  calls_walkable calls = true ->
  exists call_list,
    Py.iter calls = Ok call_list
    /\ forallb is_str call_list = true
    /\ (Py.is_dict calls = true ->
        forall x, In x call_list -> exists sub, Py.getitem calls x = Ok sub).
Proof.
  destruct calls; simpl; try discriminate; intros Hw.
  - exists (Py.chars s). repeat split; [apply chars_are_strings | discriminate].
  - exists items. repeat split; [assumption | discriminate].
  - exists (map PStr (Py.keys entries)).
    repeat split; [apply keys_are_strings |].
    intros _ x Hx. apply in_map_iff in Hx as [k [<- Hk]].
    unfold Py.keys in Hk. apply in_map_iff in Hk as [[k' v] [<- Hkv]].
    simpl. clear Hw. induction entries as [| [k0 v0] rest IH];
      [contradiction |].
    simpl. destruct (String.eqb_spec k' k0); [eauto |].
    destruct Hkv as [Heq | Hin]; [congruence | now apply IH].
Qed.

Lemma scrape_call_returns
      (fetch_function : pyval -> pyval -> Scope -> Run Z)
      (module calls : pyval) (module_config : Scope) (x : pyval) :
  never_fails fetch_function ->
  is_str x = true ->
  (Py.is_dict calls = true -> exists sub, Py.getitem calls x = Ok sub) ->
  forall acc st, exists a st',
    scrape_call fetch_function module calls module_config x acc st
    = (Ok a, st').
Proof.
  intros Hfetch Hstr Hsub acc st. destruct x; try discriminate.
  unfold scrape_call, bind at 1, lift. cbn [Py.startswith_underscore].
  destruct (String.prefix "_" s); [unfold ret; eauto |].
  unfold bind at 1.
  assert (Hcfg : exists call_config st1,
             deduce_call_config module_config calls (PStr s) st
             = (Ok call_config, st1)).
  { unfold deduce_call_config. destruct (Py.is_dict calls).
    - destruct (Hsub eq_refl) as [sub Hget].
      unfold bind, lift, derive. rewrite Hget. eauto.
    - unfold ret. eauto. }
  destruct Hcfg as [call_config [st1 ->]].
  destruct (skip call_config).
  - unfold bind, log_info, ret. eauto.
  - unfold bind, ret.
    destruct (Hfetch module (PStr s) call_config st1) as [n [st' ->]]. eauto.
Qed.

(** With a fetch function that never fails, a dict of modules whose
    values are walkable (a dict, a list of strings or a string for every
    module that is not metadata) is walked to the end: the walk returns
    a count. *)
Theorem walkable_modules_return :
  forall (fetch_function : pyval -> pyval -> Scope -> Run Z)
         (d : list (string * pyval)) (chain_config : Scope) (st : State),
    never_fails fetch_function ->
    modules_walkable d = true ->
    exists n st',
      scrape_module_calls (PDict d) chain_config fetch_function st
      = (Ok n, st').
Proof.
  intros fetch_function d chain_config st Hfetch Hshape.
  unfold scrape_module_calls, bind at 1, derive.
  unfold bind at 1, lift. simpl Py.iter. cbv iota beta.
  apply for_each_returns. intros x Hx acc st0.
  apply in_map_iff in Hx as [k [<- Hk]].
  unfold modules_walkable in Hshape. rewrite forallb_forall in Hshape.
  specialize (Hshape k Hk).
  unfold scrape_module, bind at 1, lift. simpl.
  destruct (String.prefix "_" k); [unfold ret; eauto |].
  simpl in Hshape. unfold bind at 1.
  destruct (Py.lookup k d) as [calls |]; [| discriminate].
  unfold bind at 1, derive. unfold bind at 1.
  destruct (walkable_iter calls Hshape) as [call_list [-> [Hstr Hsub]]].
  apply for_each_returns. intros x Hx acc1 st1.
  apply scrape_call_returns; [assumption | |].
  - rewrite forallb_forall in Hstr. now apply Hstr.
  - intros Hdict. now apply Hsub.
Qed.

Lemma scrape_call_rejects
      (fetch_function : pyval -> pyval -> Scope -> Run Z)
      (module calls : pyval) (module_config : Scope) (x : pyval) :
  is_str x = false ->
  forall acc st, exists e st',
    scrape_call fetch_function module calls module_config x acc st
    = (Raise e, st').
Proof.
  intros Hstr acc st. destruct x; try discriminate;
    unfold scrape_call, bind, lift; simpl; eauto.
Qed.

Lemma not_all_strings (l : list pyval) :
  forallb is_str l = false -> exists x, In x l /\ is_str x = false.
Proof.
  induction l as [| y rest IH]; simpl; [discriminate |].
  destruct (is_str y) eqn:Hy; simpl.
  - intros Hr. destruct (IH Hr) as [x [Hin Hx]]. exists x. auto.
  - intros _. exists y. auto.
Qed.

(** Whatever the fetch function, a dict of modules with a module that
    is not metadata and whose value is not walkable ([None], a boolean,
    a number, or a list with an element that is not a string) is never
    walked to the end: the walk raises. *)
Theorem unwalkable_modules_raise :
  forall (fetch_function : pyval -> pyval -> Scope -> Run Z)
         (d : list (string * pyval)) (chain_config : Scope) (st : State),
    modules_walkable d = false ->
    exists e st',
      scrape_module_calls (PDict d) chain_config fetch_function st
      = (Raise e, st').
Proof.
  intros fetch_function d chain_config st Hshape.
  unfold scrape_module_calls, bind at 1, derive.
  unfold bind at 1, lift. simpl Py.iter. cbv iota beta.
  unfold modules_walkable in Hshape.
  assert (Hbad : exists k, In k (Py.keys d)
                           /\ String.prefix "_" k = false
                           /\ match Py.lookup k d with
                              | Some calls => calls_walkable calls
                              | None => false
                              end = false).
  { clear - Hshape. induction (Py.keys d) as [| k rest IH];
      [discriminate |].
    simpl in Hshape. apply andb_false_iff in Hshape as [Hk | Hrest].
    - apply orb_false_iff in Hk as [Hmeta Hcalls]. exists k.
      repeat split; [now left | assumption | assumption].
    - destruct (IH Hrest) as [k' [Hin Hk']]. exists k'. split; [now right | assumption]. }
  destruct Hbad as [k [Hin [Hmeta Hcalls]]].
  apply (for_each_raises _ _ (PStr k)); [now apply in_map |].
  intros acc st0. unfold scrape_module, bind at 1, lift. simpl.
  rewrite Hmeta. unfold bind at 1.
  destruct (Py.lookup k d) as [calls |]; [| eauto].
  unfold bind at 1, derive. unfold bind at 1.
  destruct calls; simpl in Hcalls; try discriminate; simpl; eauto.
  destruct (not_all_strings items Hcalls) as [x [Hx Hstr]].
  simpl. apply (for_each_raises _ _ x Hx).
  now apply scrape_call_rejects.
Qed.

End WalkShapes.

(** *** Scopes that are never derived, calls that are never made *)

Section WalkScopes.

Context {Scope : Type} `{ScrapeConfigOps Scope} {W : Type}.
Variable api : SubscanBase Scope W.

Local Open Scope py_scope.
Local Open Scope list_scope.

Local Abbreviation State := (RunState Scope W).
Local Abbreviation Run := (M (RunState Scope W)).

(** Whatever the accounts map to, a run of [scrape_transfers] derives
    one scope only, that of the accounts as a whole, and every transfer
    fetch is made at that scope: the value of an account (its own skip
    marker or parameters) is never looked at. *)
Theorem scrape_transfers_single_scope :
  forall (accounts : pyval) (chain_config : Scope),
    appends (at_accounts_scope chain_config accounts)
            (scrape_transfers api accounts chain_config).
Proof.
  intros accounts chain_config. unfold scrape_transfers.
  apply appends_bind; [apply appends_derive; now split |].
  intros accounts_config st st' Hderive.
  assert (Hcfg : accounts_config = create_inner_config chain_config accounts)
    by (unfold derive in Hderive; congruence).
  subst accounts_config.
  apply appends_lift. intros account_list _.
  apply appends_bind; [| intros; apply appends_ret].
  apply appends_for_each. intros account acc _.
  unfold scrape_account.
  apply appends_lift. intros [|] Haccount; [apply appends_ret |].
  destruct account; try discriminate. simpl Py.is_dict. cbv iota.
  apply appends_bind; [apply appends_ret |].
  intros account_config st0 st1 Hret.
  assert (Hacc : account_config = create_inner_config chain_config accounts)
    by (unfold ret in Hret; congruence).
  subst account_config.
  destruct (skip (create_inner_config chain_config accounts)).
  - apply appends_bind; [apply appends_log_info; exact I |].
    intros; apply appends_ret.
  - apply appends_bind; [apply appends_call_api; reflexivity |].
    intros; apply appends_ret.
Qed.

(** When the scope of a module asks to skip and the value of the module
    is not a dict, no call of the module is fetched: the call loop gives
    the same result with any other fetch function, and the world after
    it is the world before it. *)
Theorem skipped_module_fetches_nothing :
  forall (fetch_function other : pyval -> pyval -> Scope -> Run Z)
         (module calls : pyval) (module_config : Scope)
         (xs : list pyval) (acc : Z) (st : State),
    skip module_config = true ->
    Py.is_dict calls = false ->
    for_each (scrape_call fetch_function module calls module_config)
             xs acc st
    = for_each (scrape_call other module calls module_config) xs acc st
    /\ world (snd (for_each (scrape_call fetch_function module calls
                                         module_config) xs acc st))
       = world st.
Proof.
  intros fetch_function other module calls module_config xs acc st
         Hskip Hshape.
  assert (Hstep : forall (f : pyval -> pyval -> Scope -> Run Z) x a
                          (s : State),
             scrape_call f module calls module_config x a s
             = match Py.startswith_underscore x with
               | Ok true => (Ok a, s)
               | Ok false => (Ok a, emit (LogInfo (skip_msg module x)) s)
               | Raise e => (Raise e, s)
               end).
  { intros f x a s.
    unfold scrape_call, bind, lift, deduce_call_config, ret.
    destruct (Py.startswith_underscore x) as [[|] | e]; try reflexivity.
    now rewrite Hshape, Hskip. }
  split.
  - apply for_each_ext. intros x _ a s. now rewrite !Hstep.
  - revert acc st. induction xs as [| x rest IH]; intros acc st;
      [reflexivity |].
    simpl. unfold bind. rewrite Hstep.
    destruct (Py.startswith_underscore x) as [[|] | e]; simpl;
      [apply IH | now rewrite IH | reflexivity].
Qed.

End WalkScopes.

(** Worked instances. *)

Lemma only_metadata_scrapes_nothing_witness :
  let d := [("_auto_hydrate", PBool true);
            ("_params", PDict [("block_num", PInt 15228214)])] in
  forallb (String.prefix "_") (Py.keys d) = true
  /\ scrape Demo.api (PDict d) ScrapeConfig.root Demo.start
     = (Ok 0, Demo.start).
Proof.
  cbv zeta. split; [reflexivity |].
  refine (proj1 (only_metadata_scrapes_nothing
                   Demo.api
                   [("_auto_hydrate", PBool true);
                    ("_params", PDict [("block_num", PInt 15228214)])]
                   ScrapeConfig.root Demo.start _)).
  reflexivity.
Defined.

Lemma scrape_stops_at_first_failure_witness :
  let d := [("extrinsics-list", PList [PStr "7-1"]);
            ("events-list", PList [PStr "7-3"]);
            ("transfers", PDict [("alice", PNone)])] in
  let st2 : RunState ScrapeConfig.t nat :=
             {| world := 2%nat;
                trace := [FetchExtrinsics (PList [PStr "7-1"]);
                          FetchEvents (PList [PStr "7-3"])] |} in
  scrape DemoFailures.api (PDict d) ScrapeConfig.root Demo.start
  = (Raise (ExternalError "HTTP 500"), st2).
Proof.
  cbv zeta.
  refine (scrape_stops_at_first_failure
            DemoFailures.api
            [("extrinsics-list", PList [PStr "7-1"]);
             ("events-list", PList [PStr "7-3"]);
             ("transfers", PDict [("alice", PNone)])]
            ScrapeConfig.root ["extrinsics-list"] ["transfers"] "events-list"
            1 Demo.start
            {| world := 1%nat;
               trace := [FetchExtrinsics (PList [PStr "7-1"])] |}
            _ (ExternalError "HTTP 500") _ _ _); reflexivity.
Defined.

Lemma scrape_total_is_sum_witness :
  scrape Demo.api
         (PDict [("extrinsics-list", PList [PStr "7-1"]);
                 ("events",
                  PDict [("balances", PList [PStr "Transfer";
                                             PStr "Deposit"])])])
         ScrapeConfig.root Demo.start
  = (Ok (1 + 14),
     {| world := 3%nat;
        trace :=
          [FetchExtrinsics (PList [PStr "7-1"]);
           CreateInner ScrapeConfig.root
                       (PDict [("balances", PList [PStr "Transfer";
                                                   PStr "Deposit"])]);
           CreateInner ScrapeConfig.root
                       (PList [PStr "Transfer"; PStr "Deposit"]);
           FetchEventsIndex (PStr "balances") (PStr "Transfer")
                            ScrapeConfig.root;
           FetchEventsIndex (PStr "balances") (PStr "Deposit")
                            ScrapeConfig.root] |}).
Proof.
  refine (scrape_total_is_sum
            Demo.api _ ScrapeConfig.root ["extrinsics-list"] ["events"]
            1 14 Demo.start
            {| world := 1%nat;
               trace := [FetchExtrinsics (PList [PStr "7-1"])] |}
            _ _ _ _); reflexivity.
Defined.

Lemma demo_fetch_never_fails :
  never_fails (api_fetch_extrinsics_index Demo.api).
Proof. intros module call config st. eexists. eexists. reflexivity. Qed.

Lemma walkable_modules_return_witness :
  let d := [("_skip", PBool false);
            ("bounties", PList [PStr "propose_bounty"]);
            ("system", PDict [("remark", PNone)])] in
  modules_walkable d = true
  /\ exists n st',
      scrape_module_calls (PDict d) ScrapeConfig.root
                          (api_fetch_extrinsics_index Demo.api) Demo.start
      = (Ok n, st').
Proof.
  cbv zeta. split; [reflexivity |].
  apply (walkable_modules_return
           (api_fetch_extrinsics_index Demo.api)
           [("_skip", PBool false);
            ("bounties", PList [PStr "propose_bounty"]);
            ("system", PDict [("remark", PNone)])]
           ScrapeConfig.root Demo.start demo_fetch_never_fails).
  reflexivity.
Defined.

Lemma unwalkable_modules_raise_witness :
  let d := [("bounties", PList [PStr "propose_bounty"; PInt 3])] in
  modules_walkable d = false
  /\ exists e st',
      scrape_module_calls (PDict d) ScrapeConfig.root
                          (api_fetch_extrinsics_index Demo.api) Demo.start
      = (Raise e, st').
Proof.
  cbv zeta. split; [reflexivity |].
  apply (unwalkable_modules_raise
           (api_fetch_extrinsics_index Demo.api)
           [("bounties", PList [PStr "propose_bounty"; PInt 3])]
           ScrapeConfig.root Demo.start).
  reflexivity.
Defined.

Lemma skipped_module_fetches_nothing_witness :
  let module_config :=
    create_inner_config ScrapeConfig.root (PDict [("_skip", PBool true)]) in
  let calls := PList [PStr "Transfer"; PStr "Deposit"] in
  skip module_config = true
  /\ Py.is_dict calls = false
  /\ world (snd (for_each (scrape_call (api_fetch_events_index Demo.api)
                                       (PStr "balances") calls module_config)
                          [PStr "Transfer"; PStr "Deposit"] 0 Demo.start))
     = world Demo.start.
Proof.
  cbv zeta. split; [reflexivity | split; [reflexivity |]].
  refine (proj2 (skipped_module_fetches_nothing
                   (api_fetch_events_index Demo.api)
                   (api_fetch_extrinsics_index Demo.api)
                   (PStr "balances") (PList [PStr "Transfer"; PStr "Deposit"])
                   (create_inner_config ScrapeConfig.root
                                        (PDict [("_skip", PBool true)]))
                   [PStr "Transfer"; PStr "Deposit"] 0 Demo.start _ _));
    reflexivity.
Defined.

(** * Further properties of the cache store *)

Section QueryFacts.

Import SubscrapeDB SubscrapeDBQueries.
Local Open Scope list_scope.

(** *** Filtered queries *)

Lemma all_runs {A : Type} (q : Query.t A) (s : Session.t)
      (tb : Session.tables) :
  Session.visible s = Ok tb ->
  Query.all q s = (Ok (filter (Query.accepts q) (Query.table q tb)), s).
Proof.
  intros Hvis. unfold Query.all, Session.select, bind, ret.
  now rewrite Hvis.
Qed.

Lemma extrinsics_query_rows
      (module call : option string) (extrinsic_ids : option (list string))
      (s : Session.t) (tb : Session.tables) :
  Session.visible s = Ok tb ->
  Query.all (extrinsics_query module call extrinsic_ids) s
  = (Ok (filter (extrinsic_selected module call extrinsic_ids)
                (Session.extrinsics tb)), s).
Proof.
  intros Hvis. rewrite (all_runs _ s tb Hvis).
  destruct module, call, extrinsic_ids; f_equal; f_equal;
    apply filter_ext; intros e;
    unfold extrinsic_selected, unless_given, extrinsics_query, Query.accepts;
    simpl; rewrite ?andb_true_r, ?andb_assoc; reflexivity.
Qed.


(** An empty list of ids is a filter like any other: the query returns
    no row, where a list that is left out returns them all. *)
Theorem extrinsics_query_no_ids :
  forall (module call : option string) (s : Session.t) (tb : Session.tables),
    Session.visible s = Ok tb ->
    Query.all (extrinsics_query module call (Some [])) s = (Ok [], s)
    /\ Query.all (extrinsics_query None None None) s
       = (Ok (Session.extrinsics tb), s).
Proof.
  intros module call s tb Hvis. split.
  - rewrite (extrinsics_query_rows _ _ _ s tb Hvis). f_equal. f_equal.
    induction (Session.extrinsics tb) as [| e rest IH]; [reflexivity |].
    simpl. unfold extrinsic_selected at 1. simpl.
    now rewrite andb_false_r.
  - rewrite (extrinsics_query_rows _ _ _ s tb Hvis). f_equal. f_equal.
    induction (Session.extrinsics tb) as [| e rest IH]; [reflexivity |].
    simpl. now rewrite IH.
Qed.

(** The rows of an events query are the events the session sees for
    which every supplied filter holds, in the order of the table. *)
Theorem events_query_conjunction :
  forall (module event : option string) (s : Session.t) (tb : Session.tables),
    Session.visible s = Ok tb ->
    Query.all (events_query module event) s
    = (Ok (filter (event_selected module event) (Session.events tb)), s).
Proof.
  intros module event s tb Hvis.
  rewrite (all_runs _ s tb Hvis).
  destruct module, event; f_equal; f_equal;
    apply filter_ext; intros e;
    unfold event_selected, unless_given, events_query, Query.accepts;
    simpl; rewrite ?andb_true_r, ?andb_assoc; reflexivity.
Qed.

(** *** Missing events *)

Lemma missing_events_visible (index_list : list string) (s : Session.t)
      (tb : Session.tables) :
  Session.visible s = Ok tb ->
  missing_events_from_index_list index_list s
  = (Ok (missing_ids_spec (Session.events tb) index_list), s).
Proof.
  intros Hvis.
  unfold missing_events_from_index_list, Session.query_events_id_in,
    Session.select, bind, ret.
  rewrite Hvis. f_equal. f_equal.
  unfold missing_ids_spec. apply filter_ext_in. intros index Hin.
  unfold not_in_ids. now rewrite matches_cover_index_list.
Qed.

(** Asking in batches gives the same ids: the missing ids of two lists
    put end to end are the missing ids of the first followed by those
    of the second. *)
Theorem missing_events_in_batches :
  forall (first second : list string) (s : Session.t) (tb : Session.tables),
    Session.visible s = Ok tb ->
    exists missing1 missing2,
      missing_events_from_index_list first s = (Ok missing1, s)
      /\ missing_events_from_index_list second s = (Ok missing2, s)
      /\ missing_events_from_index_list (first ++ second) s
         = (Ok (missing1 ++ missing2), s).
Proof.
  intros first second s tb Hvis.
  exists (missing_ids_spec (Session.events tb) first),
         (missing_ids_spec (Session.events tb) second).
  rewrite !(missing_events_visible _ s tb Hvis).
  repeat split. unfold missing_ids_spec. now rewrite filter_app.
Qed.

(** The ids reported missing are missing: asked again, they are all
    reported again. *)
Theorem missing_events_idempotent :
  forall (index_list : list string) (s : Session.t) (tb : Session.tables),
    Session.visible s = Ok tb ->
    exists missing,
      missing_events_from_index_list index_list s = (Ok missing, s)
      /\ missing_events_from_index_list missing s = (Ok missing, s).
Proof.
  intros index_list s tb Hvis.
  exists (missing_ids_spec (Session.events tb) index_list).
  rewrite !(missing_events_visible _ s tb Hvis). split; [reflexivity |].
  f_equal. f_equal. unfold missing_ids_spec.
  induction index_list as [| i rest IH]; [reflexivity |].
  simpl. destruct (existsb _ (Session.events tb)) eqn:Hex; simpl;
    [exact IH | now rewrite Hex, IH].
Qed.

(** *** Writing, then reading *)


Lemma visible_after_add (it : item) (s : Session.t) (tb tb' : Session.tables) :
  Session.visible s = Ok tb ->
  Session.insert it tb = Ok tb' ->
  Session.visible (snd (write_item it s)) = Ok tb'.
Proof.
  intros Hvis Hins. unfold Session.visible in *. simpl.
  rewrite insert_all_app, Hvis. simpl. now rewrite Hins.
Qed.


(** An event written under an id that no row carries is no longer
    reported missing, and nothing else changes in the report. *)
Theorem written_event_is_not_missing :
  forall (e : Event.t) (index_list : list string)
         (s : Session.t) (tb : Session.tables),
    Session.visible s = Ok tb ->
    Session.has_event (Event.id e) tb = false ->
    let staged := snd (write_item (EventItem e) s) in
    exists missing,
      missing_events_from_index_list index_list s = (Ok missing, s)
      /\ missing_events_from_index_list index_list staged
         = (Ok (filter (fun i => negb (String.eqb (Event.id e) i)) missing),
            staged).
Proof.
  intros e index_list s tb Hvis Hfresh. cbv zeta.
  set (tb' := {| Session.blocks := Session.blocks tb;
                 Session.extrinsics := Session.extrinsics tb;
                 Session.events := Session.events tb ++ [e] |}).
  assert (Hins : Session.insert (EventItem e) tb = Ok tb')
    by (simpl; now rewrite Hfresh).
  pose proof (visible_after_add _ s tb tb' Hvis Hins) as Hvis'.
  exists (missing_ids_spec (Session.events tb) index_list).
  rewrite (missing_events_visible _ s tb Hvis),
    (missing_events_visible _ _ tb' Hvis').
  split; [reflexivity |]. f_equal. f_equal.
  unfold missing_ids_spec. simpl.
  induction index_list as [| i rest IH]; [reflexivity |].
  simpl. rewrite existsb_snoc, negb_orb.
  destruct (existsb (fun x => String.eqb (Event.id x) i) (Session.events tb));
    simpl; [exact IH |].
  destruct (String.eqb (Event.id e) i); simpl; [exact IH | now rewrite IH].
Qed.

(** *** Flushing *)


End QueryFacts.

(** Worked instances. *)


Lemma extrinsics_query_no_ids_witness :
  Session.visible DemoStore.stored = Ok DemoStore.extrinsics_table
  /\ Query.all (SubscrapeDBQueries.extrinsics_query (Some "bounties") None
                                                    (Some []))
               DemoStore.stored
     = (Ok [], DemoStore.stored).
Proof.
  split; [reflexivity |].
  apply (proj1 (extrinsics_query_no_ids (Some "bounties") None
                                        DemoStore.stored
                                        DemoStore.extrinsics_table
                                        eq_refl)).
Defined.

Lemma events_query_conjunction_witness :
  Session.visible Demo.cached = Ok Demo.cached_rows
  /\ Query.all (SubscrapeDBQueries.events_query None None) Demo.cached
     = (Ok [Demo.event_row "100-1"; Demo.event_row "100-3";
            Demo.event_row "100-2"], Demo.cached)
  /\ Query.all (SubscrapeDBQueries.events_query (Some "balances") None)
               Demo.cached
     = (Ok [], Demo.cached).
Proof.
  split; [reflexivity | split].
  - apply (events_query_conjunction None None Demo.cached Demo.cached_rows).
    reflexivity.
  - apply (events_query_conjunction (Some "balances") None Demo.cached
                                    Demo.cached_rows).
    reflexivity.
Defined.

Lemma missing_events_in_batches_witness :
  Session.visible Demo.cached = Ok Demo.cached_rows
  /\ exists missing1 missing2,
      SubscrapeDB.missing_events_from_index_list ["100-2"; "200-7"]
                                                 Demo.cached
      = (Ok missing1, Demo.cached)
      /\ SubscrapeDB.missing_events_from_index_list ["100-4"; "100-1"]
                                                    Demo.cached
         = (Ok missing2, Demo.cached)
      /\ SubscrapeDB.missing_events_from_index_list
           (["100-2"; "200-7"] ++ ["100-4"; "100-1"])%list Demo.cached
         = (Ok (missing1 ++ missing2)%list, Demo.cached).
Proof.
  split; [reflexivity |].
  apply (missing_events_in_batches ["100-2"; "200-7"] ["100-4"; "100-1"]
                                   Demo.cached Demo.cached_rows).
  reflexivity.
Defined.

Lemma missing_events_idempotent_witness :
  Session.visible Demo.cached = Ok Demo.cached_rows
  /\ exists missing,
      SubscrapeDB.missing_events_from_index_list
        ["100-2"; "200-7"; "100-4"] Demo.cached
      = (Ok missing, Demo.cached)
      /\ SubscrapeDB.missing_events_from_index_list missing Demo.cached
         = (Ok missing, Demo.cached).
Proof.
  split; [reflexivity |].
  apply (missing_events_idempotent ["100-2"; "200-7"; "100-4"]
                                   Demo.cached Demo.cached_rows).
  reflexivity.
Defined.


Lemma written_event_is_not_missing_witness :
  let staged := snd (SubscrapeDB.write_item
                       (EventItem (Demo.event_row "200-7")) Demo.cached) in
  Session.visible Demo.cached = Ok Demo.cached_rows
  /\ Session.has_event "200-7" Demo.cached_rows = false
  /\ exists missing,
      SubscrapeDB.missing_events_from_index_list
        ["100-2"; "200-7"; "100-4"] Demo.cached
      = (Ok missing, Demo.cached)
      /\ SubscrapeDB.missing_events_from_index_list
           ["100-2"; "200-7"; "100-4"] staged
         = (Ok (filter (fun i => negb (String.eqb "200-7" i)) missing),
            staged).
Proof.
  cbv zeta. split; [reflexivity | split; [reflexivity |]].
  refine (written_event_is_not_missing
            (Demo.event_row "200-7") ["100-2"; "200-7"; "100-4"]
            Demo.cached Demo.cached_rows _ _); reflexivity.
Defined.

